(** * Synthetic workforce data generator: model and verified properties

    A shallow embedding of [synthetic_data_engine/data_generator.py]:
    the employee, schedule and timecard generators, the entry point
    [main], and the properties of the generated tables.

    Modelling conventions.
    - Python [float] values are binary64 numbers; each is a rational, so a
      float is a [Q] and every float operation is the exact rational
      operation followed by [b64], rounding to the nearest binary64 with
      ties to even (the exponent range is not modelled: the program's
      values are far from overflow and from the subnormal range).
    - The three pseudorandom streams (Python's [random], numpy's global
      [RandomState], Faker's generator) are oracle tapes: the k-th draw of
      a stream reads entry k of its tape.  Properties are proved for every
      tape, hence for every outcome of the draws.
    - Exceptions are the [Raise] results of an error monad that also
      threads the stream positions.
    - A [date] is its proleptic Gregorian ordinal, a [datetime] a date
      with hour, minute and second; ISO strings of dates and timestamps
      are modelled by the values they print (printing is injective, and
      [pd.to_datetime] parses what [isoformat] printed).  The year range
      1..9999 of Python dates is not modelled. *)

From Stdlib Require Import ZArith QArith Qround String Ascii List Lia DecimalString DecimalZ.
From stdpp Require Import base option list gmap strings.

Set Default Proof Using "Type".
Local Open Scope string_scope.
Local Open Scope list_scope.
Local Open Scope Z_scope.

(** ** Binary64 arithmetic on rationals *)

Module Float.

(** [rne p q]: the integer nearest to [p / q] ([0 < q]), ties to even. *)
Definition rne (p q : Z) : Z :=
  let f := p / q in
  let r := p mod q in
  if 2 * r <? q then f
  else if q <? 2 * r then f + 1
  else if Z.even f then f else f + 1.

(** [b64 x]: the binary64 number nearest to [x], ties to even.  The
    exponent [e] is chosen so that [|x| / 2^e] lies in [[2^52, 2^53)];
    the significand is that quotient rounded by [rne]. *)
Definition b64 (x : Q) : Q :=
  let n := Qnum x in
  let d := Zpos (Qden x) in
  if n =? 0 then 0%Q
  else
    let a := Z.abs n in
    let e0 := Z.log2 a - Z.log2 d - 53 in
    let e :=
      if a * 2 ^ Z.max 0 (- e0) <? 2 ^ 53 * (d * 2 ^ Z.max 0 e0)
      then e0 else e0 + 1 in
    let m := rne (a * 2 ^ Z.max 0 (- e)) (d * 2 ^ Z.max 0 e) in
    Qmake (Z.sgn n * m * 2 ^ Z.max 0 e) (Z.to_pos (2 ^ Z.max 0 (- e))).

Definition of_int (n : Z) : Q := b64 (inject_Z n).
Definition fadd (x y : Q) : Q := b64 (x + y).
Definition fsub (x y : Q) : Q := b64 (x - y).
Definition fmul (x y : Q) : Q := b64 (x * y).
Definition fdiv (x y : Q) : Q := b64 (x / y).

(** [int(x)]: truncation toward zero. *)
Definition to_int (x : Q) : Z := Z.quot (Qnum x) (Zpos (Qden x)).

(** [round(x)]: nearest integer, ties to even, of the exact value. *)
Definition round (x : Q) : Z := rne (Qnum x) (Zpos (Qden x)).

(** [round(x, 2)]: the exact value rounded to two decimals, ties to even,
    then the binary64 number nearest to that decimal. *)
Definition round2 (x : Q) : Q :=
  b64 (Qmake (rne (100 * Qnum x) (Zpos (Qden x))) 100).

Definition fmax (x y : Q) : Q := if Qle_bool x y then y else x.
Definition flt (x y : Q) : bool := negb (Qle_bool y x).

End Float.

Import Float.

(** ** Strings, dates and timestamps *)

Definition string_of_Z (n : Z) : string := NilEmpty.string_of_int (Z.to_int n).

(** [s.split("/")]: the segments of [s] between slashes (never empty). *)
Fixpoint split_slash (s : string) : list string :=
  match s with
  | EmptyString => [""]
  | String c r =>
      if Ascii.eqb c "/"%char then "" :: split_slash r
      else match split_slash r with
           | h :: t => String c h :: t
           | [] => [String c ""]
           end
  end.

(** [org_path.split("/")[-1]] *)
Definition dept_of (org_path : string) : string := List.last (split_slash org_path) "".

Definition date := Z.

(** [date.weekday()]: 0 is Monday. *)
Definition weekday (d : date) : Z := (d + 6) mod 7.

Record datetime := mk_datetime {
  dt_date : date;
  dt_hour : Z;
  dt_minute : Z;
  dt_second : Z
}.

Definition second_of_day (t : datetime) : Z :=
  dt_hour t * 3600 + dt_minute t * 60 + dt_second t.

(** Seconds since midnight of ordinal 0: the order of timestamps. *)
Definition dt_seconds (t : datetime) : Z := dt_date t * 86400 + second_of_day t.

(** [t + timedelta(seconds=s)] *)
Definition dt_add (t : datetime) (s : Z) : datetime :=
  let total := second_of_day t + s in
  {| dt_date := dt_date t + total / 86400;
     dt_hour := (total mod 86400) / 3600;
     dt_minute := (total mod 3600) / 60;
     dt_second := total mod 60 |}.

(** [a - b], a timedelta, in seconds. *)
Definition dt_sub (a b : datetime) : Z := dt_seconds a - dt_seconds b.

(** [timedelta.total_seconds()]: an integer count divided as floats. *)
Definition total_seconds (td : Z) : Q := of_int td.

Definition hours (h : Z) : Z := h * 3600.
Definition minutes (m : Z) : Z := m * 60.

(** ** The source's first function *)

Definition shift_bucket_from_start (start_hour : Z) : string :=
  if (6 <=? start_hour) && (start_hour <? 14) then "DAY"
  else if (14 <=? start_hour) && (start_hour <? 22) then "EVENING"
  else "NIGHT".

(** ** Exceptions, random streams and the generator monad *)

Inductive exn := KeyError | IndexError | ValueError.

Inductive result (A : Type) :=
| Ok (a : A)
| Raise (e : exn).
Arguments Ok {A} a.
Arguments Raise {A} e.

(** The process-wide pseudorandom state: one tape and one position per
    stream.  numpy's stream serves two kinds of draws, gaussian doubles
    and bounded integers; the draw made at position [k] reads entry [k]
    of the tape of its kind. *)
Record Rng := mk_rng {
  random_tape : nat -> N;
  random_pos : nat;
  gauss_tape : nat -> Q;
  interval_tape : nat -> N;
  np_pos : nat;
  name_tape : nat -> string;
  faker_pos : nat
}.

Definition M (A : Type) : Type := Rng -> result (A * Rng).

Definition ret {A} (a : A) : M A := fun r => Ok (a, r).
Definition raise {A} (e : exn) : M A := fun _ => Raise e.
Definition bind {A B} (m : M A) (f : A -> M B) : M B :=
  fun r => match m r with
           | Ok (a, r') => f a r'
           | Raise e => Raise e
           end.

Declare Scope gen_scope.
Delimit Scope gen_scope with gen.
Notation "x <- m ;; f" := (bind m (fun x => f))
  (at level 100, m at next level, right associativity) : gen_scope.
Local Open Scope gen_scope.

(** [for a in l: s = body(a, s)] *)
Fixpoint for_each {A S} (l : list A) (body : A -> S -> M S) (s : S) : M S :=
  match l with
  | [] => ret s
  | a :: l' => s' <- body a s ;; for_each l' body s'
  end.

(** [range(n)] *)
Definition range (n : Z) : list Z := map Z.of_nat (seq 0 (Z.to_nat n)).

Definition len {A} (l : list A) : Z := Z.of_nat (length l).

(** *** Python's [random] module *)

(** One bounded draw, [random._randbelow(n)], for [0 < n]. *)
Definition randbelow (n : nat) : M nat := fun r =>
  Ok (N.to_nat (random_tape r (random_pos r) mod N.of_nat n)%N,
      mk_rng (random_tape r) (S (random_pos r)) (gauss_tape r) (interval_tape r)
             (np_pos r) (name_tape r) (faker_pos r)).

(** [random.random()]: a multiple of [2^-53] in [[0, 1)]. *)
Definition random_random : M Q := fun r =>
  Ok (Qmake (Z.of_N (random_tape r (random_pos r)) mod 2 ^ 53) (2 ^ 53),
      mk_rng (random_tape r) (S (random_pos r)) (gauss_tape r) (interval_tape r)
             (np_pos r) (name_tape r) (faker_pos r)).

(** [random.choice(seq)]: raises IndexError on an empty sequence. *)
Definition random_choice {A} (population : list A) : M A :=
  match population with
  | [] => raise IndexError
  | x :: _ => i <- randbelow (length population) ;; ret (nth i population x)
  end.

(** [random.uniform(a, b)] is [a + (b - a) * random()]. *)
Definition random_uniform (a b : Q) : M Q :=
  u <- random_random ;; ret (fadd a (fmul (fsub b a) u)).

(** *** numpy's global [RandomState] *)

(** [np.random.normal(loc, scale)] is [loc + scale * gauss]. *)
Definition np_random_normal (loc scale : Q) : M Q := fun r =>
  Ok (fadd loc (fmul scale (b64 (gauss_tape r (np_pos r)))),
      mk_rng (random_tape r) (random_pos r) (gauss_tape r) (interval_tape r)
             (S (np_pos r)) (name_tape r) (faker_pos r)).

(** One draw of an integer in [[0, max]]. *)
Definition random_interval (max : nat) : M nat := fun r =>
  Ok (N.to_nat (interval_tape r (np_pos r) mod N.of_nat (S max))%N,
      mk_rng (random_tape r) (random_pos r) (gauss_tape r) (interval_tape r)
             (S (np_pos r)) (name_tape r) (faker_pos r)).

(** [x[i], x[j] = x[j], x[i]] *)
Definition swap {A} (l : list A) (i j : nat) : list A :=
  match l !! i, l !! j with
  | Some x, Some y => <[j:=x]> (<[i:=y]> l)
  | _, _ => l
  end.

(** [RandomState.shuffle]: for [i] from [n-1] down to 1, swap entry [i]
    with entry [j], [j] drawn in [[0, i]]. *)
Definition shuffle {A} (l : list A) : M (list A) :=
  for_each (rev (seq 1 (length l - 1)))
           (fun i arr => j <- random_interval i ;; ret (swap arr i j)) l.

(** [frame.sample(n=k, replace=False)]: pandas draws from numpy's global
    state; the rows at the first [k] entries of a permutation of the
    positions.  A sample larger than the frame raises ValueError. *)
Definition df_sample {A} (rows : list A) (k : nat) : M (list A) :=
  if (length rows <? k)%nat then raise ValueError
  else idx <- shuffle (seq 0 (length rows)) ;;
       ret (omap (fun i => rows !! i) (take k idx)).

(** *** Faker *)

(** [fake.name()] *)
Definition fake_name : M string := fun r =>
  Ok (name_tape r (faker_pos r),
      mk_rng (random_tape r) (random_pos r) (gauss_tape r) (interval_tape r)
             (np_pos r) (name_tape r) (S (faker_pos r))).

(** ** Data model *)

Record Job := mk_job {
  job_code : string;
  job_title : string;
  job_family : string
}.

Record Config := mk_config {
  seed : Z;
  days : Z;
  orgs : list string;
  jobs : gmap string (list Job);
  paycodes : list string
}.

(** A pandas frame: its rows, and whether it has its columns.  A frame
    built from an empty list of row dicts has no columns, and selecting
    a column of it raises KeyError. *)
Record DataFrame (A : Type) := mk_frame {
  df_columns : bool;
  df_rows : list A
}.
Arguments mk_frame {A} _ _.
Arguments df_columns {A} _.
Arguments df_rows {A} _.

(** [pd.DataFrame(rows)] *)
Definition pd_DataFrame {A} (rows : list A) : DataFrame A :=
  {| df_columns := match rows with [] => false | _ :: _ => true end;
     df_rows := rows |}.

(** [frame["column"]] *)
Definition column {A} (df : DataFrame A) : M unit :=
  if df_columns df then ret tt else raise KeyError.

Record Employee := mk_employee {
  employee_id : string;
  employee_number : Z;
  employee_name : string;
  e_org_path : string;
  department : string;
  e_job_code : string;
  e_job_title : string;
  e_job_family : string;
  employment_status : string;
  e_home_org_path : string;
  hourly_rate : Q
}.

Record Shift := mk_shift {
  schedule_date : date;
  shift_id : string;
  s_employee_id : option string;
  s_org_path : string;
  s_job_code : string;
  shift_start : datetime;
  shift_end : datetime;
  shift_bucket : string;
  is_open_shift : bool;
  scheduled_hours : Q
}.

(** What [frame.loc[label, column]] returns: the value of the one row
    with that label, or a Series of the values when several rows have it. *)
Inductive cell :=
| Scalar (s : string)
| Series (l : list string).

Record Timecard := mk_timecard {
  timecard_entry_id : string;
  t_employee_id : string;
  work_date : date;
  t_org_path : string;
  t_home_org_path : cell;
  t_job_code : string;
  clock_in : datetime;
  clock_out : datetime;
  worked_hours : Q;
  paycode : string;
  scheduled_shift_id : option string
}.

(** ** generate_employees *)

Definition generic_job (dept : string) : Job :=
  {| job_code := "GEN"; job_title := "General Staff"; job_family := dept |}.

(** The body of the inner loop: one employee row.  The draws are made
    in the order the source evaluates them: job, name, status, rate. *)
Definition employee_row (org_path dept : string) (dept_jobs : list Job)
    (emp_num : Z) : M Employee :=
  job <- match dept_jobs with
         | [] => ret (generic_job dept)
         | _ :: _ => random_choice dept_jobs
         end ;;
  name <- fake_name ;;
  status <- random_choice ["FT"; "PT"; "PRN"] ;;
  rate <- (if String.eqb dept "Nursing"
           then random_uniform (of_int 18) (of_int 55)
           else random_uniform (of_int 15) (of_int 35)) ;;
  ret {| employee_id := String.append "E" (string_of_Z emp_num);
         employee_number := emp_num;
         employee_name := name;
         e_org_path := org_path;
         department := dept;
         e_job_code := job_code job;
         e_job_title := job_title job;
         e_job_family := job_family job;
         employment_status := status;
         e_home_org_path := org_path;
         hourly_rate := round2 rate |}.

(** The body of the outer loop: [n_per_org] rows for one org path. *)
Definition org_employees (cfg : Config) (n_per_org : Z) (org_path : string)
    (st : list Employee * Z) : M (list Employee * Z) :=
  let dept := dept_of org_path in
  let dept_jobs := default [] (jobs cfg !! dept) in
  for_each (range n_per_org)
    (fun _ st =>
       e <- employee_row org_path dept dept_jobs (snd st) ;;
       ret (fst st ++ [e], snd st + 1))
    st.

Definition generate_employees (cfg : Config) (n_per_org : Z) : M (DataFrame Employee) :=
  st <- for_each (orgs cfg) (org_employees cfg n_per_org) ([], 100000) ;;
  ret (pd_DataFrame (fst st)).

(** ** generate_schedule *)

Definition base_demand (dept : string) (dow : Z) : Z :=
  let base := if String.eqb dept "Nursing" then 55
              else if String.eqb dept "EVS" then 22 else 10 in
  if String.eqb dept "HR" && (5 <=? dow) then 3 else base.

Definition shift_hours (dept : string) : Z :=
  if String.eqb dept "Nursing" then 12 else 8.

Definition start_hours (bucket : string) : list Z :=
  if String.eqb bucket "DAY" then [6; 7]
  else if String.eqb bucket "EVENING" then [14; 15]
  else [22; 23].

(** The row appended for a chosen employee. *)
Definition filled_shift (day : date) (org_path dept bucket : string)
    (start_hour : Z) (e : Employee) (shift_id : Z) : Shift :=
  let start_dtm := mk_datetime day start_hour 0 0 in
  let end_dtm := dt_add start_dtm (hours (shift_hours dept)) in
  {| schedule_date := day;
     shift_id := String.append "S" (string_of_Z shift_id);
     s_employee_id := Some (employee_id e);
     s_org_path := org_path;
     s_job_code := e_job_code e;
     shift_start := start_dtm;
     shift_end := end_dtm;
     shift_bucket := bucket;
     is_open_shift := false;
     scheduled_hours := fdiv (total_seconds (dt_sub end_dtm start_dtm)) (of_int 3600) |}.

(** The default of [cfg.jobs.get(dept, [{"job_code": "GEN"}])]: a job
    dict with the single key [job_code], the only key read from it. *)
Definition gen_code_only : Job :=
  {| job_code := "GEN"; job_title := ""; job_family := "" |}.

(** The row appended for an open shift, given the job drawn for it. *)
Definition open_shift_row (day : date) (org_path dept bucket : string)
    (start_hour : Z) (job : Job) (shift_id : Z) : Shift :=
  let start_dtm := mk_datetime day start_hour 0 0 in
  let end_dtm := dt_add start_dtm (hours (shift_hours dept)) in
  {| schedule_date := day;
     shift_id := String.append "S" (string_of_Z shift_id);
     s_employee_id := None;
     s_org_path := org_path;
     s_job_code := job_code job;
     shift_start := start_dtm;
     shift_end := end_dtm;
     shift_bucket := bucket;
     is_open_shift := true;
     scheduled_hours := fdiv (total_seconds (dt_sub end_dtm start_dtm)) (of_int 3600) |}.

(** [random.choice(cfg.jobs.get(dept, [{"job_code": "GEN"}]))], then the row. *)
Definition open_shift (cfg : Config) (day : date) (org_path dept bucket : string)
    (start_hour : Z) (shift_id : Z) : M Shift :=
  job <- random_choice (default [gen_code_only] (jobs cfg !! dept)) ;;
  ret (open_shift_row day org_path dept bucket start_hour job shift_id).

Definition buckets : list (string * Q) :=
  [("DAY", b64 (45 # 100)); ("EVENING", b64 (35 # 100)); ("NIGHT", b64 (20 # 100))].

(** The body of the loop over buckets. *)
Definition bucket_shifts (cfg : Config) (employees : DataFrame Employee)
    (day : date) (org_path dept : string) (demand : Z)
    (bp : string * Q) (st : list Shift * Z) : M (list Shift * Z) :=
  let bucket := fst bp in
  let pct := snd bp in
  let needed := round (fmul (of_int demand) pct) in
  u <- random_uniform (b64 (3 # 100)) (b64 (8 # 100)) ;;
  let open_count := round (fmul (of_int needed) u) in
  _ <- column employees ;;
  let org_emps := List.filter (fun e => String.eqb (e_org_path e) org_path)
                              (df_rows employees) in
  match org_emps with
  | [] => ret st
  | _ :: _ =>
      let scheduled_count := Z.max 0 (needed - open_count) in
      chosen <- df_sample org_emps (Z.to_nat (Z.min scheduled_count (len org_emps))) ;;
      start_hour <- random_choice (start_hours bucket) ;;
      st1 <- for_each chosen
               (fun e st =>
                  ret (fst st ++ [filled_shift day org_path dept bucket start_hour e (snd st)],
                       snd st + 1))
               st ;;
      for_each (range open_count)
        (fun _ st =>
           row <- open_shift cfg day org_path dept bucket start_hour (snd st) ;;
           ret (fst st ++ [row], snd st + 1))
        st1
  end.

(** The body of the loop over org paths, for one day. *)
Definition org_shifts (cfg : Config) (employees : DataFrame Employee)
    (day : date) (org_path : string) (st : list Shift * Z) : M (list Shift * Z) :=
  let dept := dept_of org_path in
  let base := base_demand dept (weekday day) in
  x <- np_random_normal (of_int base) (of_int 3) ;;
  let demand := Z.max 0 (to_int x) in
  for_each buckets (bucket_shifts cfg employees day org_path dept demand) st.

(** The body of the loop over days. *)
Definition day_shifts (cfg : Config) (employees : DataFrame Employee)
    (start_date : date) (d : Z) (st : list Shift * Z) : M (list Shift * Z) :=
  let day := start_date + d in
  for_each (orgs cfg) (org_shifts cfg employees day) st.

Definition generate_schedule (cfg : Config) (employees : DataFrame Employee)
    (start_date : date) : M (DataFrame Shift) :=
  st <- for_each (range (days cfg)) (day_shifts cfg employees start_date) ([], 500000) ;;
  ret (pd_DataFrame (fst st)).

(** ** generate_timecards *)

(** The paycode of a filled shift's timecard.  [and] short-circuits:
    each department draws [random.random()] at most once, and a Nursing
    shift over 12 worked hours draws nothing. *)
Definition draw_paycode (dept : string) (worked : Q) : M string :=
  if String.eqb dept "Nursing" && flt (of_int 12) worked then ret "OT"
  else if String.eqb dept "Nursing" then
    u <- random_random ;;
    if flt u (b64 (18 # 100)) then random_choice ["REG"; "OT"; "CALL"]
    else ret "REG"
  else
    u <- random_random ;;
    if flt u (b64 (8 # 100)) then ret "OT" else ret "REG".

(** [employees.set_index("employee_id").loc[id, "home_org_path"]] *)
Definition loc_home_org_path (employees : DataFrame Employee) (id : string) : M cell :=
  _ <- column employees ;;
  match List.filter (fun e => String.eqb (employee_id e) id) (df_rows employees) with
  | [] => raise KeyError
  | [e] => ret (Scalar (e_home_org_path e))
  | es => ret (Series (map e_home_org_path es))
  end.

(** The row appended for a filled shift. *)
Definition shift_timecard (employees : DataFrame Employee) (s : Shift)
    (tc_id : Z) : M Timecard :=
  let dept := dept_of (s_org_path s) in
  let start := shift_start s in
  let end_ := shift_end s in
  x <- np_random_normal (of_int 4) (of_int 6) ;;
  let late_minutes := to_int x in
  y <- np_random_normal (of_int 3) (of_int 8) ;;
  let early_out_minutes := to_int y in
  let clock_in := dt_add start (minutes (Z.max (-15) late_minutes)) in
  let clock_out := dt_add end_ (- minutes (Z.max (-30) early_out_minutes)) in
  let worked := fmax 0 (fdiv (total_seconds (dt_sub clock_out clock_in)) (of_int 3600)) in
  pc <- draw_paycode dept worked ;;
  id <- match s_employee_id s with
        | Some id => ret id
        | None => raise KeyError
        end ;;
  home <- loc_home_org_path employees id ;;
  ret {| timecard_entry_id := String.append "T" (string_of_Z tc_id);
         t_employee_id := id;
         work_date := schedule_date s;
         t_org_path := s_org_path s;
         t_home_org_path := home;
         t_job_code := s_job_code s;
         clock_in := clock_in;
         clock_out := clock_out;
         worked_hours := round2 worked;
         paycode := pc;
         scheduled_shift_id := Some (shift_id s) |}.

(** The row appended for an unscheduled exception entry. *)
Definition exception_timecard (employees : DataFrame Employee)
    (scheduled_assigned : list Shift) (tc_id : Z) : M Timecard :=
  es <- df_sample (df_rows employees) 1 ;;
  match es with
  | [] => raise IndexError
  | e :: _ =>
      ds <- df_sample scheduled_assigned 1 ;;
      match ds with
      | [] => raise IndexError
      | s :: _ =>
          let day := schedule_date s in
          start_hour <- random_choice [5; 9; 13; 17; 21] ;;
          let start := mk_datetime day start_hour 0 0 in
          dur <- random_choice [4; 6; 8] ;;
          let end_ := dt_add start (hours dur) in
          pc <- random_choice ["REG"; "OT"; "CALL"] ;;
          ret {| timecard_entry_id := String.append "T" (string_of_Z tc_id);
                 t_employee_id := employee_id e;
                 work_date := day;
                 t_org_path := e_org_path e;
                 t_home_org_path := Scalar (e_home_org_path e);
                 t_job_code := e_job_code e;
                 clock_in := start;
                 clock_out := end_;
                 worked_hours :=
                   round2 (fdiv (total_seconds (dt_sub end_ start)) (of_int 3600));
                 paycode := pc;
                 scheduled_shift_id := None |}
      end
  end.

(** [schedule[schedule["is_open_shift"] == False]] *)
Definition filled (rows : list Shift) : list Shift :=
  List.filter (fun s => negb (is_open_shift s)) rows.

(** [int(len(scheduled_assigned) * 0.02)] *)
Definition exception_count (scheduled_assigned : list Shift) : Z :=
  to_int (fmul (of_int (len scheduled_assigned)) (b64 (2 # 100))).

Definition generate_timecards (cfg : Config) (employees : DataFrame Employee)
    (schedule : DataFrame Shift) : M (DataFrame Timecard) :=
  _ <- column schedule ;;
  let scheduled_assigned := filled (df_rows schedule) in
  st <- for_each scheduled_assigned
          (fun s st =>
             row <- shift_timecard employees s (snd st) ;;
             ret (fst st ++ [row], snd st + 1))
          ([], 900000) ;;
  st' <- for_each (range (exception_count scheduled_assigned))
           (fun _ st =>
              row <- exception_timecard employees scheduled_assigned (snd st) ;;
              ret (fst st ++ [row], snd st + 1))
           st ;;
  ret (pd_DataFrame (fst st')).

(** ** main *)

(** What a run of the entry point reads from its environment: the parsed
    configuration file, the UTC date of the run, and the state the three
    random streams are in before they are seeded. *)
Record World := mk_world {
  config_file : Config;
  utc_today : date;
  rng_before : Rng
}.

(** The three tables [main] writes as CSV files. *)
Record Tables := mk_tables {
  employees_csv : DataFrame Employee;
  schedules_csv : DataFrame Shift;
  timecards_csv : DataFrame Timecard
}.

Section Main.

(** The generators' algorithms: the tape each stream produces once it is
    seeded with a given integer. *)
Variable seeded_random : Z -> nat -> N.
Variable seeded_gauss : Z -> nat -> Q.
Variable seeded_interval : Z -> nat -> N.
Variable seeded_names : Z -> nat -> string.

(** [random.seed(s)] *)
Definition random_seed (s : Z) : M unit := fun r =>
  Ok (tt, mk_rng (seeded_random s) 0 (gauss_tape r) (interval_tape r)
                 (np_pos r) (name_tape r) (faker_pos r)).

(** [np.random.seed(s)]: the seed must be between 0 and [2^32 - 1]. *)
Definition np_random_seed (s : Z) : M unit := fun r =>
  if (0 <=? s) && (s <? 2 ^ 32)
  then Ok (tt, mk_rng (random_tape r) (random_pos r) (seeded_gauss s) (seeded_interval s)
                      0 (name_tape r) (faker_pos r))
  else Raise ValueError.

(** [Faker.seed(s)] *)
Definition Faker_seed (s : Z) : M unit := fun r =>
  Ok (tt, mk_rng (random_tape r) (random_pos r) (gauss_tape r) (interval_tape r)
                 (np_pos r) (seeded_names s) 0).

Definition main (w : World) : result Tables :=
  let cfg := config_file w in
  let run :=
    _ <- random_seed (seed cfg) ;;
    _ <- np_random_seed (seed cfg) ;;
    _ <- Faker_seed (seed cfg) ;;
    let start_date := utc_today w - days cfg in
    employees <- generate_employees cfg 70 ;;
    schedule <- generate_schedule cfg employees start_date ;;
    timecards <- generate_timecards cfg employees schedule ;;
    ret (mk_tables employees schedule timecards) in
  match run (rng_before w) with
  | Ok (t, _) => Ok t
  | Raise e => Raise e
  end.

End Main.

(** ** Concrete inputs

    A small configuration, roster and tapes on which the generators are
    evaluated. *)

Module Sample.

Definition cfg : Config :=
  {| seed := 42;
     days := 1;
     orgs := ["H/Nursing"; "H/HR"];
     jobs := {[ "Nursing" := [mk_job "RN" "Registered Nurse" "Clinical"] ]};
     paycodes := ["REG"; "OT"; "CALL"] |}.

Definition tape_random (s : Z) (k : nat) : N := (N.of_nat k * 7919 + N.of_nat (Z.to_nat s))%N.
Definition tape_gauss (s : Z) (k : nat) : Q := Qmake (Z.of_nat k mod 7 - 3) 2.
Definition tape_interval (s : Z) (k : nat) : N := (N.of_nat k * 31 + 7)%N.
Definition tape_names (s : Z) (k : nat) : string := "Pat Doe".

Definition rng : Rng :=
  mk_rng (tape_random 42) 0 (tape_gauss 42) (tape_interval 42) 0 (tape_names 42) 0.

Definition nurse (n : Z) : Employee :=
  {| employee_id := String.append "E" (string_of_Z n);
     employee_number := n;
     employee_name := "Pat Doe";
     e_org_path := "H/Nursing";
     department := "Nursing";
     e_job_code := "RN";
     e_job_title := "Registered Nurse";
     e_job_family := "Clinical";
     employment_status := "FT";
     e_home_org_path := "H/Nursing";
     hourly_rate := 30 |}.

Definition roster : DataFrame Employee :=
  pd_DataFrame [nurse 100000; nurse 100001; nurse 100002].

(** 2026-01-05, a Monday. *)
Definition monday : date := 739621.

Definition rn : Job := mk_job "RN" "Registered Nurse" "Clinical".

(** A schedule of 100 filled day shifts and one open shift. *)
Definition schedule : DataFrame Shift :=
  pd_DataFrame
    (map (fun i => filled_shift monday "H/Nursing" "Nursing" "DAY" 7 (nurse 100001) (500000 + i))
         (range 100)
     ++ [open_shift_row monday "H/Nursing" "Nursing" "DAY" 7 rn 500100]).

(** An employee working away from the home org, and a shift of theirs. *)
Definition floater : Employee :=
  {| employee_id := "E100000";
     employee_number := 100000;
     employee_name := "Pat Doe";
     e_org_path := "H/Nursing";
     department := "Nursing";
     e_job_code := "RN";
     e_job_title := "Registered Nurse";
     e_job_family := "Clinical";
     employment_status := "PRN";
     e_home_org_path := "H/EVS";
     hourly_rate := 30 |}.

Definition floater_schedule : DataFrame Shift :=
  pd_DataFrame [filled_shift monday "H/Nursing" "Nursing" "DAY" 7 floater 500000].

(** A catalog that lists the EVS department with no jobs, a roster of
    that department, and tapes with a 0.9 for every [random.random()]. *)
Definition cfg_evs : Config :=
  {| seed := 7;
     days := 1;
     orgs := ["H/EVS"];
     jobs := {[ "EVS" := [] ]};
     paycodes := ["REG"; "OT"; "CALL"] |}.

Definition cleaner (n : Z) : Employee :=
  {| employee_id := String.append "E" (string_of_Z n);
     employee_number := n;
     employee_name := "Pat Doe";
     e_org_path := "H/EVS";
     department := "EVS";
     e_job_code := "GEN";
     e_job_title := "General Staff";
     e_job_family := "EVS";
     employment_status := "FT";
     e_home_org_path := "H/EVS";
     hourly_rate := 20 |}.

Definition roster_evs : DataFrame Employee :=
  pd_DataFrame [cleaner 100000; cleaner 100001].

Definition rng_evs : Rng :=
  mk_rng (fun _ => 8106479329266893%N) 0 (fun _ => 0%Q) (fun _ => 0%N) 0
         (fun _ => "Pat Doe") 0.

(** A second state of the streams, as another process would have
    before it seeds them. *)
Definition rng_other : Rng :=
  mk_rng (fun _ => 5%N) 3 (fun _ => 1%Q) (fun _ => 2%N) 9 (fun _ => "Sam Roe") 4.

End Sample.

(** * Properties *)

(** ** The monad and the loops *)

Lemma bind_ok {A B} (m : M A) (f : A -> M B) r b r2 :
  bind m f r = Ok (b, r2) ->
  exists a r1, m r = Ok (a, r1) /\ f a r1 = Ok (b, r2).
Proof.
  unfold bind. destruct (m r) as [[a r1]|e]; [|discriminate].
  intros H. exists a, r1. split; [reflexivity|exact H].
Qed.

Lemma ret_ok {A} (a b : A) r r' : ret a r = Ok (b, r') -> b = a /\ r' = r.
Proof. unfold ret. intros H. injection H as <- <-. split; reflexivity. Qed.

Lemma raise_ok {A} e r (x : A * Rng) : raise e r = Ok x -> False.
Proof. unfold raise. discriminate. Qed.

(** Break a successful run into the successful runs of its steps. *)
Ltac run_inv H :=
  lazymatch type of H with
  | bind _ _ _ = Ok _ =>
      let a := fresh "a" in
      let r := fresh "r" in
      let H1 := fresh "Hrun" in
      let H2 := fresh "Hrun" in
      apply bind_ok in H; destruct H as (a & r & H1 & H2);
      try run_inv H2
  | ret _ _ = Ok _ =>
      let E1 := fresh "E" in
      let E2 := fresh "E" in
      apply ret_ok in H; destruct H as [E1 E2]
  | raise _ _ = Ok _ => destruct (raise_ok _ _ _ H)
  | _ => idtac
  end.

(** A property of the loop state that every iteration preserves holds
    when the loop ends. *)
Lemma for_each_invariant {A S} (P : S -> Prop) (body : A -> S -> M S) (l : list A) :
  (forall a s r s' r', In a l -> P s -> body a s r = Ok (s', r') -> P s') ->
  forall s r s' r', P s -> for_each l body s r = Ok (s', r') -> P s'.
Proof.
  induction l as [|a l IH]; intros Hbody s r s' r' Hs Hrun; simpl in Hrun.
  - apply ret_ok in Hrun. destruct Hrun as [-> _]. exact Hs.
  - run_inv Hrun.
    apply (IH (fun a' s0 r0 s1 r1 Hin => Hbody a' s0 r0 s1 r1 (or_intror Hin))
              a0 r0 s' r'); [|assumption].
    apply (Hbody a s r a0 r0); [left; reflexivity|assumption|assumption].
Qed.

(** A loop whose iterations all succeed succeeds. *)
Lemma for_each_total {A S} (P : S -> Prop) (body : A -> S -> M S) (l : list A) :
  (forall a s r, In a l -> P s -> exists s' r', body a s r = Ok (s', r') /\ P s') ->
  forall s r, P s -> exists s' r', for_each l body s r = Ok (s', r') /\ P s'.
Proof.
  induction l as [|a l IH]; intros Hbody s r Hs; simpl.
  - exists s, r. split; [reflexivity|exact Hs].
  - destruct (Hbody a s r (or_introl eq_refl) Hs) as (s1 & r1 & E & Hs1).
    unfold bind. rewrite E.
    apply IH; [|exact Hs1].
    intros a' s0 r0 Hin. apply Hbody. right. exact Hin.
Qed.

Lemma range_length (n : Z) : length (range n) = Z.to_nat n.
Proof. unfold range. rewrite length_map, length_seq. reflexivity. Qed.

(** ** The random draws *)

Lemma randbelow_lt (n : nat) r i r' :
  (0 < n)%nat -> randbelow n r = Ok (i, r') -> (i < n)%nat.
Proof.
  intros Hn H. unfold randbelow in H. injection H as <- _.
  assert (random_tape r (random_pos r) mod N.of_nat n < N.of_nat n)%N
    by (apply N.mod_lt; lia).
  lia.
Qed.

Lemma random_choice_In {A} (l : list A) r x r' :
  random_choice l r = Ok (x, r') -> In x l.
Proof.
  destruct l as [|y l]; simpl; intros H.
  - destruct (raise_ok _ _ _ H).
  - run_inv H. subst x.
    apply randbelow_lt in Hrun; [|simpl; lia].
    apply (nth_In (y :: l) y Hrun).
Qed.

Lemma random_choice_total {A} (l : list A) r :
  l <> [] -> exists x r', random_choice l r = Ok (x, r').
Proof.
  destruct l as [|y l]; [congruence|]. intros _.
  unfold random_choice, bind, randbelow, ret. eauto.
Qed.

Lemma random_choice_empty {A} r : random_choice (@nil A) r = Raise IndexError.
Proof. reflexivity. Qed.

Lemma df_sample_In {A} (rows : list A) k r l r' :
  df_sample rows k r = Ok (l, r') -> forall x, In x l -> In x rows.
Proof.
  unfold df_sample. destruct (length rows <? k)%nat; intros H.
  - destruct (raise_ok _ _ _ H).
  - run_inv H. subst l. intros x Hx.
    apply list_elem_of_In in Hx. apply list_elem_of_omap in Hx.
    destruct Hx as (i & _ & Hi).
    apply list_elem_of_In. apply list_elem_of_lookup. exists i. exact Hi.
Qed.

(** ** The rows of the schedule *)

(** What a row of the schedule is: the row of a chosen employee of the
    org path, or the row of an open shift with a job of the department's
    list, for a bucket of [buckets] and a start hour of that bucket. *)
Definition generated_shift (cfg : Config) (employees : DataFrame Employee)
    (s : Shift) : Prop :=
  exists day org_path bp start_hour id,
    In org_path (orgs cfg) /\ In bp buckets /\
    In start_hour (start_hours (fst bp)) /\
    ((exists e, In e (df_rows employees) /\ e_org_path e = org_path /\
        s = filled_shift day org_path (dept_of org_path) (fst bp) start_hour e id)
     \/
     (exists job, In job (default [gen_code_only] (jobs cfg !! dept_of org_path)) /\
        s = open_shift_row day org_path (dept_of org_path) (fst bp) start_hour job id)).

Lemma Forall_snoc {A} (P : A -> Prop) (l : list A) (x : A) :
  Forall P l -> P x -> Forall P (l ++ [x]).
Proof. intros Hl Hx. apply Forall_app. split; [exact Hl|constructor; [exact Hx|constructor]]. Qed.

Lemma open_shift_ok cfg day org_path dept bucket start_hour shift_id r s r' :
  open_shift cfg day org_path dept bucket start_hour shift_id r = Ok (s, r') ->
  exists job, In job (default [gen_code_only] (jobs cfg !! dept)) /\
    s = open_shift_row day org_path dept bucket start_hour job shift_id.
Proof.
  unfold open_shift. intros H. run_inv H.
  exists a. split; [exact (random_choice_In _ _ _ _ Hrun)|exact E].
Qed.

Lemma bucket_shifts_rows cfg employees day org_path demand bp st r st' r' :
  In org_path (orgs cfg) -> In bp buckets ->
  Forall (generated_shift cfg employees) (fst st) ->
  bucket_shifts cfg employees day org_path (dept_of org_path) demand bp st r = Ok (st', r') ->
  Forall (generated_shift cfg employees) (fst st').
Proof.
  intros Horg Hbp Hst H. unfold bucket_shifts in H.
  run_inv H.
  match goal with
  | H : match List.filter ?f ?l with [] => _ | _ :: _ => _ end _ = Ok _ |- _ =>
      destruct (List.filter f l) as [|e0 org_emps] eqn:Efilter; [|run_inv H]
  end.
  { match goal with H : ret _ _ = Ok _ |- _ => apply ret_ok in H; destruct H as [-> _] end.
    exact Hst. }
  match goal with
  | Hsample : df_sample _ _ _ = Ok (?chosen, _),
    Hchoice : random_choice (start_hours _) _ = Ok (?start_hour, _),
    Hfilled : for_each ?chosen _ st _ = Ok (?st1, _),
    Hopen : for_each (range _) _ ?st1 _ = Ok (st', r') |- _ =>
      pose proof (random_choice_In _ _ _ _ Hchoice) as Hhour;
      pose proof (df_sample_In _ _ _ _ _ Hsample) as Hchosen;
      revert Hopen; apply (for_each_invariant (fun s => Forall (generated_shift cfg employees) (fst s)));
      [|revert Hfilled; apply (for_each_invariant (fun s => Forall (generated_shift cfg employees) (fst s))); [|exact Hst]]
  end.
  - intros i s0 q0 s1 q1 _ Hs0 Hbody. run_inv Hbody. subst s1. simpl.
    apply Forall_snoc; [exact Hs0|].
    match goal with H : open_shift _ _ _ _ _ _ _ _ = Ok _ |- _ =>
      apply open_shift_ok in H; destruct H as (job & Hjob & ->) end.
    eexists day, org_path, bp, _, (snd s0). repeat (split; [eassumption|]).
    right. exists job. auto.
  - intros e s0 q0 s1 q1 He Hs0 Hbody. apply ret_ok in Hbody. destruct Hbody as [-> _].
    simpl. apply Forall_snoc; [exact Hs0|].
    apply Hchosen in He. rewrite <- Efilter in He.
    apply filter_In in He. destruct He as [He Heq]. apply String.eqb_eq in Heq.
    eexists day, org_path, bp, _, (snd s0). repeat (split; [eassumption|]).
    left. exists e. auto.
Qed.

Lemma generate_schedule_rows cfg employees start_date r df r' :
  generate_schedule cfg employees start_date r = Ok (df, r') ->
  Forall (generated_shift cfg employees) (df_rows df).
Proof.
  unfold generate_schedule. intros H. run_inv H. subst df. simpl.
  match goal with H : for_each _ _ _ _ = Ok _ |- _ => revert H end.
  apply (for_each_invariant (fun s => Forall (generated_shift cfg employees) (fst s))); [|constructor].
  intros d s0 q0 s1 q1 _ Hs0. unfold day_shifts.
  apply (for_each_invariant (fun s => Forall (generated_shift cfg employees) (fst s))); [|exact Hs0].
  intros org_path s2 q2 s3 q3 Horg Hs2 Hbody. unfold org_shifts in Hbody.
  run_inv Hbody.
  match goal with H : for_each _ _ _ _ = Ok _ |- _ => revert H end.
  apply (for_each_invariant (fun s => Forall (generated_shift cfg employees) (fst s))); [|exact Hs2].
  intros bp s4 q4 s5 q5 Hbp Hs4. apply bucket_shifts_rows; assumption.
Qed.

(** ** Open-shift exclusivity and bucket correctness *)

(** C2. Every row of the schedule that [generate_schedule] returns has
    no employee id when it is an open shift, and, when it is not, has
    the employee id of a row of the employee table passed in. *)
Theorem open_shift_exclusivity cfg employees start_date r df r' :
  generate_schedule cfg employees start_date r = Ok (df, r') ->
  forall s, In s (df_rows df) ->
    (is_open_shift s = true -> s_employee_id s = None) /\
    (is_open_shift s = false ->
       exists e, In e (df_rows employees) /\ s_employee_id s = Some (employee_id e)).
Proof.
  intros Hgen s Hs.
  pose proof (generate_schedule_rows _ _ _ _ _ _ Hgen) as Hrows.
  rewrite List.Forall_forall in Hrows. apply Hrows in Hs.
  destruct Hs as (day & org_path & bp & h & id & _ & _ & _ & [(e & He & _ & ->)|(job & _ & ->)]);
    simpl; split; intros Hopen; try discriminate.
  - exists e. split; [exact He|reflexivity].
  - reflexivity.
Qed.

Lemma open_shift_exclusivity_witness :
  exists df r',
    generate_schedule Sample.cfg Sample.roster Sample.monday Sample.rng = Ok (df, r') /\
    forall s, In s (df_rows df) ->
      (is_open_shift s = true -> s_employee_id s = None) /\
      (is_open_shift s = false ->
         exists e, In e (df_rows Sample.roster) /\ s_employee_id s = Some (employee_id e)).
Proof.
  destruct (generate_schedule Sample.cfg Sample.roster Sample.monday Sample.rng)
    as [[df r']|e] eqn:E.
  - exists df, r'. split; [reflexivity|].
    exact (open_shift_exclusivity _ _ _ _ _ _ E).
  - vm_compute in E. discriminate E.
Defined.

Lemma bucket_of_start_hour (bp : string * Q) (h : Z) :
  In bp buckets -> In h (start_hours (fst bp)) ->
  fst bp = shift_bucket_from_start h /\
  (fst bp = "DAY" <-> 6 <= h < 14) /\
  (fst bp = "EVENING" <-> 14 <= h < 22) /\
  (fst bp = "NIGHT" <-> ~ (6 <= h < 14) /\ ~ (14 <= h < 22)).
Proof.
  intros Hbp Hh. simpl in Hbp.
  destruct Hbp as [<-|[<-|[<-|[]]]]; simpl in Hh;
    destruct Hh as [<-|[<-|[]]]; simpl;
    (split; [reflexivity|]);
    repeat split; intros; try discriminate; try lia; try reflexivity.
Qed.

(** C3. Every row of the schedule that [generate_schedule] returns has
    [shift_bucket] equal to [shift_bucket_from_start] of the start hour
    of [shift_start]: DAY exactly for the hours 6..13, EVENING exactly
    for 14..21, NIGHT exactly for the others. *)
Theorem shift_bucket_correct cfg employees start_date r df r' :
  generate_schedule cfg employees start_date r = Ok (df, r') ->
  forall s, In s (df_rows df) ->
    let h := dt_hour (shift_start s) in
    shift_bucket s = shift_bucket_from_start h /\
    (shift_bucket s = "DAY" <-> 6 <= h < 14) /\
    (shift_bucket s = "EVENING" <-> 14 <= h < 22) /\
    (shift_bucket s = "NIGHT" <-> ~ (6 <= h < 14) /\ ~ (14 <= h < 22)).
Proof.
  intros Hgen s Hs.
  pose proof (generate_schedule_rows _ _ _ _ _ _ Hgen) as Hrows.
  rewrite List.Forall_forall in Hrows. apply Hrows in Hs.
  destruct Hs as (day & org_path & bp & h & id & _ & Hbp & Hh & [(e & _ & _ & ->)|(job & _ & ->)]);
    simpl; exact (bucket_of_start_hour bp h Hbp Hh).
Qed.

Lemma shift_bucket_correct_witness :
  exists df r',
    generate_schedule Sample.cfg Sample.roster Sample.monday Sample.rng = Ok (df, r') /\
    forall s, In s (df_rows df) ->
      let h := dt_hour (shift_start s) in
      shift_bucket s = shift_bucket_from_start h /\
      (shift_bucket s = "DAY" <-> 6 <= h < 14) /\
      (shift_bucket s = "EVENING" <-> 14 <= h < 22) /\
      (shift_bucket s = "NIGHT" <-> ~ (6 <= h < 14) /\ ~ (14 <= h < 22)).
Proof.
  destruct (generate_schedule Sample.cfg Sample.roster Sample.monday Sample.rng)
    as [[df r']|e] eqn:E.
  - exists df, r'. split; [reflexivity|].
    exact (shift_bucket_correct _ _ _ _ _ _ E).
  - vm_compute in E. discriminate E.
Defined.

(** ** The roster *)

Lemma string_of_Z_inj (a b : Z) : string_of_Z a = string_of_Z b -> a = b.
Proof.
  unfold string_of_Z. intros H. apply DecimalZ.to_int_inj.
  apply (f_equal NilEmpty.int_of_string) in H.
  rewrite !NilEmpty.isi in H. congruence.
Qed.

(** Progress of a loop: [R done s] relates the state to the elements
    already iterated over. *)
Lemma for_each_progress {A S} (R : list A -> S -> Prop) (body : A -> S -> M S)
    (l : list A) :
  (forall done a s r, In a l -> R done s ->
     exists s' r', body a s r = Ok (s', r') /\ R (done ++ [a]) s') ->
  forall done s r, R done s ->
    exists s' r', for_each l body s r = Ok (s', r') /\ R (done ++ l) s'.
Proof.
  induction l as [|a l IH]; intros Hbody done s r Hs; simpl.
  - exists s, r. rewrite app_nil_r. split; [reflexivity|exact Hs].
  - destruct (Hbody done a s r (or_introl eq_refl) Hs) as (s1 & r1 & E & Hs1).
    unfold bind. rewrite E.
    replace (done ++ a :: l) with ((done ++ [a]) ++ l) by (rewrite <- app_assoc; reflexivity).
    apply IH; [|exact Hs1].
    intros done' a' s0 r0 Hin. apply Hbody. right. exact Hin.
Qed.

Lemma employee_row_ok org_path dept dept_jobs emp_num r :
  exists e r', employee_row org_path dept dept_jobs emp_num r = Ok (e, r') /\
    e_org_path e = org_path /\ e_home_org_path e = org_path /\
    department e = dept /\ employee_number e = emp_num /\
    employee_id e = String.append "E" (string_of_Z emp_num).
Proof.
  unfold employee_row, random_uniform, random_choice, bind, ret,
    randbelow, fake_name, random_random.
  destruct dept_jobs as [|j js]; destruct (String.eqb dept "Nursing"); simpl;
    eexists; eexists; (split; [reflexivity|]); simpl; repeat split.
Qed.

(** The rows of a roster in generation order: org paths as listed,
    numbers counting up from 100000. *)
Definition numbered (rows : list Employee) : Prop :=
  forall k e, nth_error rows k = Some e ->
    employee_number e = 100000 + Z.of_nat k /\
    employee_id e = String.append "E" (string_of_Z (100000 + Z.of_nat k)) /\
    e_home_org_path e = e_org_path e /\
    department e = dept_of (e_org_path e).

Lemma numbered_snoc rows e :
  numbered rows ->
  employee_number e = 100000 + len rows ->
  employee_id e = String.append "E" (string_of_Z (100000 + len rows)) ->
  e_home_org_path e = e_org_path e ->
  department e = dept_of (e_org_path e) ->
  numbered (rows ++ [e]).
Proof.
  intros Hrows Hnum Hid Hhome Hdept k e' Hk.
  destruct (Nat.lt_ge_cases k (length rows)) as [Hlt|Hge].
  - rewrite nth_error_app1 in Hk by exact Hlt. exact (Hrows k e' Hk).
  - rewrite nth_error_app2 in Hk by exact Hge.
    destruct (k - length rows)%nat as [|i] eqn:Ei; simpl in Hk.
    + injection Hk as <-. assert (k = length rows) as -> by lia.
      unfold len in *. repeat split; assumption.
    + destruct i; discriminate Hk.
Qed.

Lemma org_employees_ok cfg n org_path st r :
  numbered (fst st) -> snd st = 100000 + len (fst st) ->
  exists st' r', org_employees cfg n org_path st r = Ok (st', r') /\
    numbered (fst st') /\ snd st' = 100000 + len (fst st') /\
    map e_org_path (fst st') = map e_org_path (fst st) ++ repeat org_path (Z.to_nat n).
Proof.
  intros Hnum Hnext. unfold org_employees.
  destruct (for_each_progress
    (fun (done : list Z) (s : list Employee * Z) =>
       numbered (fst s) /\ snd s = 100000 + len (fst s) /\
       map e_org_path (fst s) = map e_org_path (fst st) ++ repeat org_path (length done))
    (fun _ s =>
       e <- employee_row org_path (dept_of org_path)
              (default [] (jobs cfg !! dept_of org_path)) (snd s) ;;
       ret (fst s ++ [e], snd s + 1))
    (range n)) with (done := @nil Z) (s := st) (r := r)
    as (st' & r' & E & H1 & H2 & H3).
  - intros done i s q _ (Hs1 & Hs2 & Hs3).
    destruct (employee_row_ok org_path (dept_of org_path)
                (default [] (jobs cfg !! dept_of org_path)) (snd s) q)
      as (e & q' & Ee & Ho & Hh & Hd & Hn & Hi).
    exists (fst s ++ [e], snd s + 1), q'. unfold bind. rewrite Ee. simpl.
    split; [reflexivity|]. split; [|split].
    + apply numbered_snoc; [exact Hs1|congruence..].
    + unfold len in *. rewrite length_app. simpl. lia.
    + rewrite map_app, Hs3, length_app. simpl. rewrite Ho.
      rewrite <- app_assoc. f_equal.
      rewrite Nat.add_1_r. rewrite <- repeat_cons. reflexivity.
  - simpl. rewrite app_nil_r. auto.
  - exists st', r'. simpl in H3. rewrite range_length in H3. auto.
Qed.

Lemma generate_employees_ok cfg n r :
  exists df r', generate_employees cfg n r = Ok (df, r') /\
    numbered (df_rows df) /\
    map e_org_path (df_rows df) =
      flat_map (fun org_path => repeat org_path (Z.to_nat n)) (orgs cfg).
Proof.
  unfold generate_employees.
  destruct (for_each_progress
    (fun (done : list string) (s : list Employee * Z) =>
       numbered (fst s) /\ snd s = 100000 + len (fst s) /\
       map e_org_path (fst s) = flat_map (fun o => repeat o (Z.to_nat n)) done)
    (org_employees cfg n) (orgs cfg)) with (done := @nil string)
    (s := (@nil Employee, 100000)) (r := r) as (st' & r' & E & H1 & H2 & H3).
  - intros done org_path s q _ (Hs1 & Hs2 & Hs3).
    destruct (org_employees_ok cfg n org_path s q Hs1 Hs2) as (s' & q' & Es & G1 & G2 & G3).
    exists s', q'. split; [exact Es|]. split; [exact G1|]. split; [exact G2|].
    rewrite G3, Hs3, flat_map_app. simpl. rewrite app_nil_r. reflexivity.
  - simpl. split; [|split; reflexivity].
    intros k e Hk. destruct k; discriminate Hk.
  - exists (pd_DataFrame (fst st')), r'. unfold bind. rewrite E. simpl.
    split; [reflexivity|]. split; [exact H1|exact H3].
Qed.

(** C7. For every configuration and headcount [n], [generate_employees]
    returns a roster with [n] employees for each entry of the org list,
    in the order of that list, and the k-th employee (from 0) has the
    number [100000 + k] and the id made of that number. *)
Theorem generate_employees_roster cfg n r :
  exists df r', generate_employees cfg n r = Ok (df, r') /\
    map e_org_path (df_rows df) =
      flat_map (fun org_path => repeat org_path (Z.to_nat n)) (orgs cfg) /\
    (forall k e, nth_error (df_rows df) k = Some e ->
       employee_number e = 100000 + Z.of_nat k /\
       employee_id e = String.append "E" (string_of_Z (100000 + Z.of_nat k))) /\
    (forall j k ej ek, nth_error (df_rows df) j = Some ej ->
       nth_error (df_rows df) k = Some ek -> (j < k)%nat ->
       employee_number ej < employee_number ek).
Proof.
  destruct (generate_employees_ok cfg n r) as (df & r' & E & Hnum & Horgs).
  exists df, r'. split; [exact E|]. split; [exact Horgs|]. split.
  - intros k e Hk. destruct (Hnum k e Hk) as (H1 & H2 & _). auto.
  - intros j k ej ek Hj Hk Hlt.
    destruct (Hnum j ej Hj) as (-> & _). destruct (Hnum k ek Hk) as (-> & _). lia.
Qed.

(** ** Signs of float results *)

Lemma rne_nonneg (p q : Z) : 0 <= p -> 0 < q -> 0 <= rne p q.
Proof.
  intros Hp Hq. unfold rne.
  assert (0 <= p / q) by (apply Z.div_pos; assumption).
  destruct (2 * (p mod q) <? q); [assumption|].
  destruct (q <? 2 * (p mod q)); [lia|].
  destruct (Z.even (p / q)); lia.
Qed.

Lemma b64_nonneg (x : Q) : (0 <= x)%Q -> (0 <= b64 x)%Q.
Proof.
  intros Hx. unfold b64.
  destruct (Qnum x =? 0) eqn:E0; [apply Qle_refl|].
  apply Z.eqb_neq in E0.
  assert (Hn : 0 < Qnum x).
  { unfold Qle in Hx. simpl in Hx. lia. }
  set (e0 := Z.log2 (Z.abs (Qnum x)) - Z.log2 (Z.pos (Qden x)) - 53).
  set (e := if _ <? _ then e0 else e0 + 1).
  unfold Qle. simpl Qnum. simpl Qden. rewrite Z.mul_0_l, Z.mul_1_r.
  rewrite (Z.sgn_pos _ Hn), Z.mul_1_l.
  apply Z.mul_nonneg_nonneg; [|apply Z.pow_nonneg; lia].
  apply rne_nonneg.
  - apply Z.mul_nonneg_nonneg; [lia|apply Z.pow_nonneg; lia].
  - apply Z.mul_pos_pos; [lia|apply Z.pow_pos_nonneg; lia].
Qed.

Lemma of_int_nonneg (n : Z) : 0 <= n -> (0 <= of_int n)%Q.
Proof.
  intros Hn. apply b64_nonneg. unfold Qle. simpl. lia.
Qed.

Lemma fdiv_nonneg (x y : Q) : (0 <= x)%Q -> (0 <= y)%Q -> (0 <= fdiv x y)%Q.
Proof.
  intros Hx Hy. apply b64_nonneg. unfold Qdiv.
  apply Qmult_le_0_compat; [exact Hx|].
  apply Qinv_le_0_compat. exact Hy.
Qed.

Lemma fmax_zero_nonneg (x : Q) : (0 <= fmax 0 x)%Q.
Proof.
  unfold fmax. destruct (Qle_bool 0 x) eqn:E.
  - apply Qle_bool_iff. exact E.
  - apply Qle_refl.
Qed.

Lemma round2_nonneg (x : Q) : (0 <= x)%Q -> (0 <= round2 x)%Q.
Proof.
  intros Hx. unfold round2. apply b64_nonneg.
  unfold Qle in *. simpl in *.
  rewrite Z.mul_1_r in *.
  assert (0 <= rne (100 * Qnum x) (Z.pos (Qden x))) by (apply rne_nonneg; lia).
  lia.
Qed.

(** ** Arithmetic of timestamps *)

Lemma dt_seconds_add (t : datetime) (s : Z) :
  dt_seconds (dt_add t s) = dt_seconds t + s.
Proof.
  unfold dt_seconds, dt_add, second_of_day. simpl.
  set (total := dt_hour t * 3600 + dt_minute t * 60 + dt_second t + s).
  Z.to_euclidean_division_equations. lia.
Qed.

Lemma dt_sub_add (t : datetime) (s : Z) : dt_sub (dt_add t s) t = s.
Proof. unfold dt_sub. rewrite dt_seconds_add. lia. Qed.

Lemma shift_hours_pos (dept : string) : 0 < shift_hours dept.
Proof. unfold shift_hours. destruct (String.eqb dept "Nursing"); lia. Qed.

Lemma generated_shift_hours cfg employees s :
  generated_shift cfg employees s -> (0 <= scheduled_hours s)%Q.
Proof.
  intros (day & org_path & bp & h & id & _ & _ & _ & [(e & _ & _ & ->)|(job & _ & ->)]);
    simpl; rewrite dt_sub_add;
    (apply fdiv_nonneg; [unfold total_seconds|]; apply of_int_nonneg;
     [pose proof (shift_hours_pos (dept_of org_path)); unfold hours; lia|lia]).
Qed.

(** ** The rows of the timecards table *)

(** A loop that appends one row per element appends, in order, one
    successfully built row for each element. *)
Lemma for_each_rows {A B} (row : A -> Z -> M B) (l : list A) :
  forall st r st' r',
  for_each l (fun a st => b <- row a (snd st) ;; ret (fst st ++ [b], snd st + 1)) st r
    = Ok (st', r') ->
  exists new, fst st' = fst st ++ new /\
    Forall2 (fun a b => exists id q q', row a id q = Ok (b, q')) l new /\
    snd st' = snd st + len l.
Proof.
  induction l as [|a l IH]; intros st r st' r' H; simpl in H.
  - apply ret_ok in H. destruct H as [-> _]. exists [].
    rewrite app_nil_r. unfold len. simpl. split; [reflexivity|]. split; [constructor|lia].
  - apply bind_ok in H. destruct H as (st1 & r1 & Hbody & Hrest).
    apply bind_ok in Hbody. destruct Hbody as (b & r2 & Hrow & Hret).
    apply ret_ok in Hret. destruct Hret as [-> _].
    apply IH in Hrest. destruct Hrest as (new & E1 & HF & E2).
    simpl in E1, E2. exists (b :: new).
    split; [rewrite E1, <- app_assoc; reflexivity|]. split.
    + constructor; [eauto|exact HF].
    + unfold len in *. simpl length. lia.
Qed.

Definition timecard_of (employees : DataFrame Employee) (s : Shift) (t : Timecard) : Prop :=
  exists id q q', shift_timecard employees s id q = Ok (t, q').

Definition exception_entry (employees : DataFrame Employee)
    (scheduled_assigned : list Shift) (t : Timecard) : Prop :=
  exists id q q', exception_timecard employees scheduled_assigned id q = Ok (t, q').

Lemma generate_timecards_rows cfg employees schedule r df r' :
  generate_timecards cfg employees schedule r = Ok (df, r') ->
  exists tcs excs,
    df_rows df = tcs ++ excs /\
    Forall2 (timecard_of employees) (filled (df_rows schedule)) tcs /\
    Forall2 (fun _ t => exception_entry employees (filled (df_rows schedule)) t)
            (range (exception_count (filled (df_rows schedule)))) excs.
Proof.
  unfold generate_timecards. intros H. run_inv H. subst df. simpl.
  match goal with
  | H1 : for_each (filled _) _ _ _ = Ok (?st1, _),
    H2 : for_each (range _) _ ?st1 _ = Ok (?st2, _) |- _ =>
      apply (for_each_rows (shift_timecard employees)) in H1;
      apply (for_each_rows
               (fun _ id => exception_timecard employees (filled (df_rows schedule)) id)) in H2;
      destruct H1 as (tcs & E1 & F1 & _); destruct H2 as (excs & E2 & F2 & _)
  end.
  exists tcs, excs. simpl in E1. rewrite E2, E1.
  split; [reflexivity|]. split; [exact F1|exact F2].
Qed.

Lemma shift_timecard_ok employees s tc_id q t q' :
  shift_timecard employees s tc_id q = Ok (t, q') ->
  scheduled_shift_id t = Some (shift_id s) /\
  dt_seconds (shift_start s) - 15 * 60 <= dt_seconds (clock_in t) /\
  (0 <= worked_hours t)%Q /\
  t_org_path t = s_org_path s /\
  exists id q1 q2, s_employee_id s = Some id /\ t_employee_id t = id /\
    loc_home_org_path employees id q1 = Ok (t_home_org_path t, q2).
Proof.
  unfold shift_timecard. intros H. run_inv H. subst t. simpl.
  split; [reflexivity|]. split; [|split; [|split; [reflexivity|]]].
  - rewrite dt_seconds_add. unfold minutes. lia.
  - apply round2_nonneg. apply fmax_zero_nonneg.
  - destruct (s_employee_id s) as [id|].
    + match goal with H : ret id _ = Ok _ |- _ =>
        apply ret_ok in H; destruct H as [-> _] end.
      eauto 10.
    + match goal with H : raise _ _ = Ok _ |- _ => destruct (raise_ok _ _ _ H) end.
Qed.

Lemma exception_timecard_ok employees scheduled_assigned tc_id q t q' :
  exception_timecard employees scheduled_assigned tc_id q = Ok (t, q') ->
  scheduled_shift_id t = None /\
  (0 <= worked_hours t)%Q /\
  exists e, In e (df_rows employees) /\ t_employee_id t = employee_id e /\
    t_org_path t = e_org_path e /\ t_home_org_path t = Scalar (e_home_org_path e).
Proof.
  unfold exception_timecard. intros H. run_inv H.
  match goal with H : df_sample (df_rows employees) 1 _ = Ok (?es, _) |- _ =>
    pose proof (df_sample_In _ _ _ _ _ H) as Hes; destruct es as [|e es] end.
  { match goal with H : raise _ _ = Ok _ |- _ => destruct (raise_ok _ _ _ H) end. }
  match goal with H : bind _ _ _ = Ok _ |- _ => run_inv H end.
  match goal with H : match ?ds with [] => _ | _ :: _ => _ end _ = Ok _ |- _ =>
    destruct ds as [|s0 ds]; [destruct (raise_ok _ _ _ H)|run_inv H] end.
  subst t. simpl. split; [reflexivity|]. split.
  - rewrite dt_sub_add. apply round2_nonneg. apply fdiv_nonneg.
    + apply of_int_nonneg.
      match goal with H : random_choice [4; 6; 8] _ = Ok (?d, _) |- _ =>
        apply random_choice_In in H; simpl in H; unfold hours; lia end.
    + apply of_int_nonneg. lia.
  - exists e. split; [apply Hes; left; reflexivity|]. auto.
Qed.

Lemma nth_error_lookup {A} (l : list A) (k : nat) : nth_error l k = l !! k.
Proof. revert k. induction l as [|x l IH]; intros [|k]; simpl; auto. Qed.

Lemma Forall2_nth_error_l {A B} (P : A -> B -> Prop) l l' k x :
  Forall2 P l l' -> nth_error l k = Some x ->
  exists y, nth_error l' k = Some y /\ P x y.
Proof.
  intros HF Hk. rewrite nth_error_lookup in Hk.
  destruct (Forall2_lookup_l _ _ _ _ _ HF Hk) as (y & Hy & HP).
  exists y. rewrite nth_error_lookup. auto.
Qed.

Lemma Forall2_In_r {A B} (P : A -> B -> Prop) l l' y :
  Forall2 P l l' -> In y l' -> exists x, In x l /\ P x y.
Proof.
  induction 1 as [|a b l l' Hab _ IH]; intros Hy; [destruct Hy|].
  destruct Hy as [<-|Hy].
  - exists a. split; [left; reflexivity|exact Hab].
  - destruct (IH Hy) as (x & Hx & HP). exists x. split; [right; exact Hx|exact HP].
Qed.

(** ** Clock-in bound *)

(** C6. The timecard that [generate_timecards] produces for the k-th
    filled shift is the k-th row of the table; it refers to that shift
    and its clock-in is no earlier than 15 minutes before the scheduled
    start.  Every row that refers to a shift is such a timecard. *)
Theorem clock_in_bound cfg employees schedule r df r' :
  generate_timecards cfg employees schedule r = Ok (df, r') ->
  (forall k s, nth_error (filled (df_rows schedule)) k = Some s ->
     exists t, nth_error (df_rows df) k = Some t /\
       scheduled_shift_id t = Some (shift_id s) /\
       dt_seconds (shift_start s) - 15 * 60 <= dt_seconds (clock_in t)) /\
  (forall t, In t (df_rows df) -> scheduled_shift_id t <> None ->
     exists s, In s (filled (df_rows schedule)) /\
       scheduled_shift_id t = Some (shift_id s) /\
       dt_seconds (shift_start s) - 15 * 60 <= dt_seconds (clock_in t)).
Proof.
  intros Hgen.
  destruct (generate_timecards_rows _ _ _ _ _ _ Hgen) as (tcs & excs & -> & Htcs & Hexcs).
  split.
  - intros k s Hk.
    destruct (Forall2_nth_error_l _ _ _ _ _ Htcs Hk) as (t & Ht & id & q & q' & Hrow).
    exists t. split.
    + rewrite nth_error_app1; [exact Ht|]. apply nth_error_Some. congruence.
    + apply shift_timecard_ok in Hrow. tauto.
  - intros t Ht Href. apply in_app_or in Ht. destruct Ht as [Ht|Ht].
    + destruct (Forall2_In_r _ _ _ _ Htcs Ht) as (s & Hs & id & q & q' & Hrow).
      exists s. split; [exact Hs|]. apply shift_timecard_ok in Hrow. tauto.
    + destruct (Forall2_In_r _ _ _ _ Hexcs Ht) as (i & _ & id & q & q' & Hrow).
      apply exception_timecard_ok in Hrow. tauto.
Qed.

Lemma clock_in_bound_witness :
  exists df r',
    generate_timecards Sample.cfg Sample.roster Sample.schedule Sample.rng = Ok (df, r') /\
    (forall k s, nth_error (filled (df_rows Sample.schedule)) k = Some s ->
       exists t, nth_error (df_rows df) k = Some t /\
         scheduled_shift_id t = Some (shift_id s) /\
         dt_seconds (shift_start s) - 15 * 60 <= dt_seconds (clock_in t)) /\
    (forall t, In t (df_rows df) -> scheduled_shift_id t <> None ->
       exists s, In s (filled (df_rows Sample.schedule)) /\
         scheduled_shift_id t = Some (shift_id s) /\
         dt_seconds (shift_start s) - 15 * 60 <= dt_seconds (clock_in t)).
Proof.
  destruct (generate_timecards Sample.cfg Sample.roster Sample.schedule Sample.rng)
    as [[df r']|e] eqn:E.
  - exists df, r'. split; [reflexivity|].
    exact (clock_in_bound _ _ _ _ _ _ E).
  - vm_compute in E. discriminate E.
Defined.

(** ** Non-negative hours *)

(** C8. Every [worked_hours] of a timecards table that
    [generate_timecards] returns, for filled shifts and exception
    entries alike, and every [scheduled_hours] of a schedule that
    [generate_schedule] returns, is at least 0. *)
Theorem hours_nonneg cfg employees schedule r timecards r'
    cfg2 employees2 start_date q generated q' :
  generate_timecards cfg employees schedule r = Ok (timecards, r') ->
  generate_schedule cfg2 employees2 start_date q = Ok (generated, q') ->
  (forall t, In t (df_rows timecards) -> (0 <= worked_hours t)%Q) /\
  (forall s, In s (df_rows generated) -> (0 <= scheduled_hours s)%Q).
Proof.
  intros Htc Hsched. split.
  - destruct (generate_timecards_rows _ _ _ _ _ _ Htc) as (tcs & excs & -> & Htcs & Hexcs).
    intros t Ht. apply in_app_or in Ht. destruct Ht as [Ht|Ht].
    + destruct (Forall2_In_r _ _ _ _ Htcs Ht) as (s & _ & id & q1 & q2 & Hrow).
      apply shift_timecard_ok in Hrow. tauto.
    + destruct (Forall2_In_r _ _ _ _ Hexcs Ht) as (i & _ & id & q1 & q2 & Hrow).
      apply exception_timecard_ok in Hrow. tauto.
  - pose proof (generate_schedule_rows _ _ _ _ _ _ Hsched) as Hrows.
    rewrite List.Forall_forall in Hrows.
    intros s Hs. exact (generated_shift_hours _ _ _ (Hrows s Hs)).
Qed.

Lemma hours_nonneg_witness :
  exists timecards r' generated q',
    generate_timecards Sample.cfg Sample.roster Sample.schedule Sample.rng
      = Ok (timecards, r') /\
    generate_schedule Sample.cfg Sample.roster Sample.monday Sample.rng
      = Ok (generated, q') /\
    (forall t, In t (df_rows timecards) -> (0 <= worked_hours t)%Q) /\
    (forall s, In s (df_rows generated) -> (0 <= scheduled_hours s)%Q).
Proof.
  destruct (generate_timecards Sample.cfg Sample.roster Sample.schedule Sample.rng)
    as [[timecards r']|e] eqn:E1; [|vm_compute in E1; discriminate E1].
  destruct (generate_schedule Sample.cfg Sample.roster Sample.monday Sample.rng)
    as [[generated q']|e] eqn:E2; [|vm_compute in E2; discriminate E2].
  exists timecards, r', generated, q'.
  split; [reflexivity|]. split; [reflexivity|].
  exact (hours_nonneg _ _ _ _ _ _ _ _ _ _ _ _ E1 E2).
Defined.

(** ** Worked org path and home org path *)

Lemma filter_unique_id (rows : list Employee) (id : string) :
  List.NoDup (map employee_id rows) ->
  List.filter (fun e => String.eqb (employee_id e) id) rows = [] \/
  exists e, In e rows /\ employee_id e = id /\
    List.filter (fun e => String.eqb (employee_id e) id) rows = [e].
Proof.
  induction rows as [|e rows IH]; intros Hnd; simpl; [left; reflexivity|].
  simpl in Hnd. apply List.NoDup_cons_iff in Hnd. destruct Hnd as [Hnotin Hnd].
  destruct (String.eqb_spec (employee_id e) id) as [Heq|Hne].
  - right. exists e. split; [left; reflexivity|]. split; [exact Heq|].
    f_equal. destruct (IH Hnd) as [Hnil|(e' & He' & Hid' & _)]; [exact Hnil|].
    exfalso. apply Hnotin. rewrite Heq, <- Hid'. apply in_map. exact He'.
  - destruct (IH Hnd) as [Hnil|(e' & He' & Hid' & Hf)]; [left; exact Hnil|].
    right. exists e'. split; [right; exact He'|]. split; assumption.
Qed.

Lemma loc_home_org_path_unique employees id q c q' :
  List.NoDup (map employee_id (df_rows employees)) ->
  loc_home_org_path employees id q = Ok (c, q') ->
  exists e, In e (df_rows employees) /\ employee_id e = id /\
    c = Scalar (e_home_org_path e).
Proof.
  intros Hnd H. unfold loc_home_org_path in H. run_inv H.
  destruct (filter_unique_id (df_rows employees) id Hnd) as [Hnil|(e & He & Hid & Hf)].
  - rewrite Hnil in *. match goal with H : raise _ _ = Ok _ |- _ =>
      destruct (raise_ok _ _ _ H) end.
  - rewrite Hf in *. match goal with H : ret _ _ = Ok _ |- _ =>
      apply ret_ok in H; destruct H as [-> _] end.
    exists e. auto.
Qed.

(** A roster and a schedule that agree: ids are distinct, every
    employee is at home in their org path, and a filled shift is in the
    org path of the employee it names. *)
Definition consistent (employees : DataFrame Employee) (schedule : DataFrame Shift) : Prop :=
  List.NoDup (map employee_id (df_rows employees)) /\
  (forall e, In e (df_rows employees) -> e_home_org_path e = e_org_path e) /\
  (forall s e, In s (filled (df_rows schedule)) -> In e (df_rows employees) ->
     s_employee_id s = Some (employee_id e) -> s_org_path s = e_org_path e).

(** [generate_timecards] copies the org path from the shift, or from the
    sampled employee, and looks the home org path up in the roster: on
    a roster and a schedule that agree the two are the same. *)
Lemma timecards_org_is_home cfg employees schedule r df r' :
  consistent employees schedule ->
  generate_timecards cfg employees schedule r = Ok (df, r') ->
  forall t, In t (df_rows df) -> t_home_org_path t = Scalar (t_org_path t).
Proof.
  intros (Hnd & Hhome & Horg) Hgen t Ht.
  destruct (generate_timecards_rows _ _ _ _ _ _ Hgen) as (tcs & excs & E & Htcs & Hexcs).
  rewrite E in Ht. apply in_app_or in Ht. destruct Ht as [Ht|Ht].
  - destruct (Forall2_In_r _ _ _ _ Htcs Ht) as (s & Hs & id & q1 & q2 & Hrow).
    apply shift_timecard_ok in Hrow.
    destruct Hrow as (_ & _ & _ & Ho & eid & q3 & q4 & Hid & _ & Hloc).
    destruct (loc_home_org_path_unique _ _ _ _ _ Hnd Hloc) as (e & He & Heid & ->).
    rewrite Ho, (Hhome e He). f_equal. symmetry.
    apply (Horg s e Hs He). rewrite Hid, Heid. reflexivity.
  - destruct (Forall2_In_r _ _ _ _ Hexcs Ht) as (i & _ & id & q1 & q2 & Hrow).
    apply exception_timecard_ok in Hrow.
    destruct Hrow as (_ & _ & e & He & _ & -> & ->).
    rewrite (Hhome e He). reflexivity.
Qed.

Lemma NoDup_map_eq {A B} (f : A -> B) (l : list A) (x y : A) :
  List.NoDup (map f l) -> In x l -> In y l -> f x = f y -> x = y.
Proof.
  induction l as [|a l IH]; intros Hnd Hx Hy Hf; [destruct Hx|].
  simpl in Hnd. apply List.NoDup_cons_iff in Hnd. destruct Hnd as [Hnotin Hnd].
  destruct Hx as [<-|Hx]; destruct Hy as [<-|Hy].
  - reflexivity.
  - exfalso. apply Hnotin. rewrite Hf. apply in_map. exact Hy.
  - exfalso. apply Hnotin. rewrite <- Hf. apply in_map. exact Hx.
  - apply IH; assumption.
Qed.

Lemma numbered_NoDup (rows : list Employee) :
  numbered rows -> List.NoDup (map employee_id rows).
Proof.
  intros Hnum. apply List.NoDup_nth_error. intros i j Hi Hij.
  rewrite length_map in Hi.
  rewrite !nth_error_map in Hij.
  destruct (nth_error rows i) as [ei|] eqn:Ei;
    [|apply nth_error_None in Ei; lia].
  destruct (nth_error rows j) as [ej|] eqn:Ej; [|discriminate Hij].
  simpl in Hij. injection Hij as Hid.
  destruct (Hnum i ei Ei) as (_ & Hi' & _). destruct (Hnum j ej Ej) as (_ & Hj' & _).
  rewrite Hi', Hj' in Hid. simpl in Hid. injection Hid as Hid.
  apply string_of_Z_inj in Hid. lia.
Qed.

(** The roster of [generate_employees] and the schedule that
    [generate_schedule] builds from it agree. *)
Lemma pipeline_consistent cfg n r0 employees r1 start_date q schedule q' :
  generate_employees cfg n r0 = Ok (employees, r1) ->
  generate_schedule cfg employees start_date q = Ok (schedule, q') ->
  consistent employees schedule.
Proof.
  intros Hemp Hsched.
  destruct (generate_employees_ok cfg n r0) as (df & r' & E & Hnum & _).
  rewrite E in Hemp. injection Hemp as -> _.
  pose proof (numbered_NoDup _ Hnum) as Hnd.
  split; [exact Hnd|]. split.
  - intros e He. apply In_nth_error in He. destruct He as (k & Hk).
    destruct (Hnum k e Hk) as (_ & _ & Hhome & _). exact Hhome.
  - intros s e Hs He Hid. unfold filled in Hs. apply filter_In in Hs.
    destruct Hs as [Hs _].
    pose proof (generate_schedule_rows _ _ _ _ _ _ Hsched) as Hrows.
    rewrite List.Forall_forall in Hrows. apply Hrows in Hs.
    destruct Hs as (day & org_path & bp & h & id & _ & _ & _ &
                    [(e0 & He0 & Horg & ->)|(job & _ & ->)]); simpl in *.
    + injection Hid as Hid.
      rewrite (NoDup_map_eq employee_id _ e e0 Hnd He He0 (eq_sym Hid)).
      symmetry. exact Horg.
    + discriminate Hid.
Qed.

(** What [main] writes: on every run that ends, the two columns of the
    timecards table agree. *)
Lemma main_org_is_home seeded_random seeded_gauss seeded_interval seeded_names
    (w : World) (tables : Tables) :
  main seeded_random seeded_gauss seeded_interval seeded_names w = Ok tables ->
  forall t, In t (df_rows (timecards_csv tables)) ->
    t_home_org_path t = Scalar (t_org_path t).
Proof.
  unfold main, bind, random_seed, np_random_seed, Faker_seed. simpl.
  destruct ((0 <=? seed (config_file w)) && (seed (config_file w) <? 2 ^ 32));
    [|discriminate].
  destruct (generate_employees (config_file w) 70 _) as [[emps q]|e] eqn:E1;
    [|discriminate].
  destruct (generate_schedule (config_file w) emps _ q) as [[s1 q1]|e1] eqn:E2;
    [|discriminate].
  destruct (generate_timecards (config_file w) emps s1 q1) as [[c1 p1]|e1] eqn:E3;
    [|discriminate].
  intros H. injection H as <-. simpl.
  exact (timecards_org_is_home _ _ _ _ _ _
           (pipeline_consistent _ _ _ _ _ _ _ _ _ E1 E2) E3).
Qed.

(** C9. On the tables the program builds, the roster by
    [generate_employees] and the schedule by [generate_schedule] from
    that roster, every row of the timecards table that
    [generate_timecards] returns, for filled shifts and exception
    entries alike, has the home org path equal to the org path worked:
    the two columns never differ. *)
Theorem org_is_home cfg n r0 employees r1 start_date q schedule q' r df r' :
  generate_employees cfg n r0 = Ok (employees, r1) ->
  generate_schedule cfg employees start_date q = Ok (schedule, q') ->
  generate_timecards cfg employees schedule r = Ok (df, r') ->
  forall t, In t (df_rows df) -> t_home_org_path t = Scalar (t_org_path t).
Proof.
  intros Hemp Hsched. apply timecards_org_is_home.
  exact (pipeline_consistent _ _ _ _ _ _ _ _ _ Hemp Hsched).
Qed.

Lemma org_is_home_witness :
  exists employees r1 schedule r2 df r3,
    generate_employees Sample.cfg 3 Sample.rng = Ok (employees, r1) /\
    generate_schedule Sample.cfg employees Sample.monday r1 = Ok (schedule, r2) /\
    generate_timecards Sample.cfg employees schedule r2 = Ok (df, r3) /\
    df_rows df <> [] /\
    forall t, In t (df_rows df) -> t_home_org_path t = Scalar (t_org_path t).
Proof.
  pose (run := (employees <- generate_employees Sample.cfg 3 ;;
                schedule <- generate_schedule Sample.cfg employees Sample.monday ;;
                df <- generate_timecards Sample.cfg employees schedule ;;
                ret (employees, schedule, df)) Sample.rng).
  assert (Hne : match run with
                | Ok (_, _, df, _) => negb (Nat.eqb (length (df_rows df)) 0)
                | Raise _ => false
                end = true) by (vm_compute; reflexivity).
  destruct run as [[[[employees schedule] df] r3]|e] eqn:E; [|discriminate Hne].
  unfold run in E.
  apply bind_ok in E. destruct E as (employees' & r1 & E1 & E).
  apply bind_ok in E. destruct E as (schedule' & r2 & E2 & E).
  apply bind_ok in E. destruct E as (df' & r3' & E3 & E).
  apply ret_ok in E. destruct E as [E <-].
  injection E as <- <- <-.
  exists employees, r1, schedule, r2, df, r3.
  split; [exact E1|]. split; [exact E2|]. split; [exact E3|]. split.
  - intros Hnil. rewrite Hnil in Hne. discriminate Hne.
  - exact (org_is_home Sample.cfg 3 Sample.rng employees r1 Sample.monday r1
             schedule r2 r2 df r3 E1 E2 E3).
Defined.

(** ** A schedule with no filled shift *)

(** With its columns and no filled shift, the schedule yields an empty
    timecards table and no draw is made. *)
Lemma timecards_of_open_shifts_only cfg employees schedule r :
  df_columns schedule = true -> filled (df_rows schedule) = [] ->
  generate_timecards cfg employees schedule r = Ok (pd_DataFrame [], r).
Proof.
  intros Hcols Hfilled. unfold generate_timecards, column, bind.
  rewrite Hcols, Hfilled. reflexivity.
Qed.

(** No day, no org path: the schedule is the frame of no rows, which has
    no columns. *)
Lemma schedule_of_no_days cfg employees start_date r :
  days cfg <= 0 -> generate_schedule cfg employees start_date r = Ok (pd_DataFrame [], r).
Proof.
  intros Hd. unfold generate_schedule, bind, range.
  replace (Z.to_nat (days cfg)) with 0%nat by lia. reflexivity.
Qed.

(** C10, the failing input. The schedule [pd.DataFrame([])], which
    [generate_schedule] returns when [days] is 0, has no filled shift,
    and [generate_timecards] raises KeyError on it: the frame has no
    column [is_open_shift] to select. *)
Theorem timecards_of_empty_schedule cfg employees r :
  filled (df_rows (@pd_DataFrame Shift [])) = [] /\
  generate_timecards cfg employees (pd_DataFrame []) r = Raise KeyError.
Proof. split; reflexivity. Qed.

(** ** Open shifts of a department listed with no jobs *)

(** The job code of an open shift is one of the department's list, or
    "GEN" for a department absent from the catalog. *)
Lemma open_shift_job_code cfg day org_path dept bucket start_hour shift_id r s r' :
  open_shift cfg day org_path dept bucket start_hour shift_id r = Ok (s, r') ->
  match jobs cfg !! dept with
  | Some dept_jobs => In (s_job_code s) (map job_code dept_jobs)
  | None => s_job_code s = "GEN"
  end.
Proof.
  intros H. apply open_shift_ok in H. destruct H as (job & Hjob & ->). simpl.
  destruct (jobs cfg !! dept) as [dept_jobs|]; simpl in Hjob.
  - apply in_map. exact Hjob.
  - destruct Hjob as [<-|[]]. reflexivity.
Qed.

(** For a department the catalog lists with an empty job list the draw
    is made from the empty list and raises. *)
Lemma open_shift_empty_list cfg day org_path dept bucket start_hour shift_id r :
  jobs cfg !! dept = Some [] ->
  open_shift cfg day org_path dept bucket start_hour shift_id r = Raise IndexError.
Proof. intros H. unfold open_shift. rewrite H. reflexivity. Qed.

(** [generate_employees] guards the same choice and gives such a
    department the generic job. *)
Lemma employee_row_empty_list org_path dept emp_num r :
  exists e r', employee_row org_path dept [] emp_num r = Ok (e, r') /\ e_job_code e = "GEN".
Proof.
  unfold employee_row, random_uniform, random_choice, bind, ret,
    randbelow, fake_name, random_random.
  destruct (String.eqb dept "Nursing"); simpl; eexists; eexists; split; reflexivity.
Qed.

(** C4, the failing input. The catalog lists EVS with no jobs; the day
    bucket of a Monday needs 10 shifts, one of them open, and drawing
    its job code raises IndexError: no "GEN" fallback is taken. *)
Theorem open_shift_of_empty_job_list :
  jobs Sample.cfg_evs !! dept_of "H/EVS" = Some [] /\
  generate_schedule Sample.cfg_evs Sample.roster_evs Sample.monday Sample.rng_evs
    = Raise IndexError.
Proof. split; vm_compute; reflexivity. Qed.

(** ** Rounding bounds and the exception count *)

Lemma rne_ge (p q j : Z) : 0 < q -> j * q <= p -> j <= rne p q.
Proof.
  intros Hq Hj. unfold rne.
  assert (j <= p / q) by (apply Z.div_le_lower_bound; lia).
  destruct (2 * (p mod q) <? q); [assumption|].
  destruct (q <? 2 * (p mod q)); [lia|].
  destruct (Z.even (p / q)); lia.
Qed.

Lemma rne_le_half (p q : Z) : 0 < q -> 2 * (rne p q * q) <= 2 * p + q.
Proof.
  intros Hq. unfold rne.
  pose proof (Z.div_mod p q ltac:(lia)) as Hdm.
  pose proof (Z.mod_pos_bound p q Hq) as Hr.
  destruct (Z.ltb_spec (2 * (p mod q)) q); [nia|].
  destruct (Z.ltb_spec q (2 * (p mod q))); [nia|].
  destruct (Z.even (p / q)); nia.
Qed.

(** The exponent and the scaled fraction [b64] rounds. *)
Definition b64_exp (a d : Z) : Z :=
  let e0 := Z.log2 a - Z.log2 d - 53 in
  if a * 2 ^ Z.max 0 (- e0) <? 2 ^ 53 * (d * 2 ^ Z.max 0 e0) then e0 else e0 + 1.

Lemma b64_pos_eq (x : Q) :
  0 < Qnum x ->
  let a := Qnum x in
  let d := Zpos (Qden x) in
  let e := b64_exp a d in
  b64 x = Qmake (rne (a * 2 ^ Z.max 0 (- e)) (d * 2 ^ Z.max 0 e) * 2 ^ Z.max 0 e)
                (Z.to_pos (2 ^ Z.max 0 (- e))).
Proof.
  intros Hn a d e. unfold b64.
  destruct (Z.eqb_spec (Qnum x) 0) as [E|_]; [lia|].
  rewrite (Z.sgn_pos _ Hn), Z.mul_1_l, (Z.abs_eq (Qnum x)) by lia.
  reflexivity.
Qed.

Lemma b64_exp_scaled (a d : Z) :
  0 < a -> 0 < d ->
  let e := b64_exp a d in
  2 ^ 52 * (d * 2 ^ Z.max 0 e) <= a * 2 ^ Z.max 0 (- e).
Proof.
  intros Ha Hd. unfold b64_exp.
  destruct (Z.log2_spec a Ha) as [Hla1 Hla2].
  destruct (Z.log2_spec d Hd) as [Hld1 Hld2].
  pose proof (Z.log2_nonneg a) as Hla0. pose proof (Z.log2_nonneg d) as Hld0.
  set (la := Z.log2 a) in *. set (ld := Z.log2 d) in *.
  set (e0 := la - ld - 53).
  assert (Hlow : 2 ^ 52 * (d * 2 ^ Z.max 0 e0) <= a * 2 ^ Z.max 0 (- e0)).
  { destruct (Z.le_gt_cases 0 e0) as [He|He].
    - rewrite (Z.max_r 0 e0), (Z.max_l 0 (- e0)) by lia.
      assert (E : 2 ^ 52 * (2 ^ Z.succ ld * 2 ^ e0) = 2 ^ la).
      { rewrite <- !Z.pow_add_r by lia. f_equal. unfold e0. lia. }
      assert (0 < 2 ^ e0) by (apply Z.pow_pos_nonneg; lia).
      nia.
    - rewrite (Z.max_l 0 e0), (Z.max_r 0 (- e0)) by lia.
      assert (E : 2 ^ la * 2 ^ (- e0) = 2 ^ 52 * 2 ^ Z.succ ld).
      { rewrite <- !Z.pow_add_r by lia. f_equal. unfold e0. lia. }
      assert (0 < 2 ^ (- e0)) by (apply Z.pow_pos_nonneg; lia).
      nia. }
  destruct (Z.ltb_spec (a * 2 ^ Z.max 0 (- e0)) (2 ^ 53 * (d * 2 ^ Z.max 0 e0))) as [Hlt|Hge].
  - exact Hlow.
  - destruct (Z.le_gt_cases 0 e0) as [He|He].
    + rewrite (Z.max_r 0 e0), (Z.max_l 0 (- e0)) in Hge by lia.
      rewrite (Z.max_r 0 (e0 + 1)), (Z.max_l 0 (- (e0 + 1))) by lia.
      rewrite Z.pow_add_r by lia. lia.
    + rewrite (Z.max_l 0 e0), (Z.max_r 0 (- e0)) in Hge by lia.
      rewrite (Z.max_l 0 (e0 + 1)), (Z.max_r 0 (- (e0 + 1))) by lia.
      replace (- e0) with (- (e0 + 1) + 1) in Hge by lia.
      rewrite Z.pow_add_r in Hge by lia. lia.
Qed.

Lemma pow2_pos (e : Z) : 0 < 2 ^ Z.max 0 e.
Proof. apply Z.pow_pos_nonneg; lia. Qed.

(** Rounding never goes below an integer that is itself a binary64. *)
Lemma b64_ge_int (x : Q) (k : Z) :
  0 <= k < 2 ^ 53 -> (inject_Z k <= x)%Q -> (inject_Z k <= b64 x)%Q.
Proof.
  intros Hk Hx.
  assert (Hkx : k * Zpos (Qden x) <= Qnum x).
  { unfold Qle in Hx. simpl in Hx. lia. }
  destruct (Z.lt_total (Qnum x) 0) as [Hneg|[Hzero|Hpos]].
  - exfalso. nia.
  - unfold b64. rewrite Hzero. simpl. unfold Qle. simpl. nia.
  - rewrite (b64_pos_eq x Hpos).
    pose proof (b64_exp_scaled (Qnum x) (Zpos (Qden x)) Hpos ltac:(lia)) as Hs.
    simpl in Hs.
    set (e := b64_exp (Qnum x) (Zpos (Qden x))) in *.
    pose proof (pow2_pos e) as HP. pose proof (pow2_pos (- e)) as HN.
    unfold Qle. simpl Qnum. simpl Qden.
    rewrite Z2Pos.id by exact HN. rewrite Z.mul_1_r.
    destruct (Z.le_gt_cases e 0) as [He|He].
    + rewrite (Z.max_l 0 e) in * by lia. rewrite Z.pow_0_r, !Z.mul_1_r in *.
      apply rne_ge; [lia|]. nia.
    + rewrite (Z.max_l 0 (- e)) in * by lia. rewrite Z.pow_0_r, !Z.mul_1_r in *.
      rewrite (Z.max_r 0 e) in * by lia.
      assert (2 ^ 52 <= rne (Qnum x) (Zpos (Qden x) * 2 ^ e)) by (apply rne_ge; lia).
      assert (2 <= 2 ^ e).
      { change 2 with (2 ^ 1) at 1. apply Z.pow_le_mono_r; lia. }
      nia.
Qed.

(** Rounding a positive number moves it up by at most one part in [2^53]. *)
Lemma b64_le_rel (x : Q) :
  (0 <= x)%Q -> (b64 x <= x * (9007199254740993 # 9007199254740992))%Q.
Proof.
  intros Hx.
  assert (H0 : 0 <= Qnum x) by (unfold Qle in Hx; simpl in Hx; lia).
  destruct (Z.eq_dec (Qnum x) 0) as [Hzero|Hnz].
  - unfold b64. rewrite Hzero. simpl. unfold Qle. simpl. rewrite Hzero. simpl. lia.
  - assert (Hpos : 0 < Qnum x) by lia.
    rewrite (b64_pos_eq x Hpos).
    pose proof (b64_exp_scaled (Qnum x) (Zpos (Qden x)) Hpos ltac:(lia)) as Hs.
    simpl in Hs.
    set (e := b64_exp (Qnum x) (Zpos (Qden x))) in *.
    pose proof (pow2_pos e) as HP. pose proof (pow2_pos (- e)) as HN.
    pose proof (rne_le_half (Qnum x * 2 ^ Z.max 0 (- e)) (Zpos (Qden x) * 2 ^ Z.max 0 e)
                  ltac:(lia)) as Hhalf.
    set (m := rne _ _) in *.
    unfold Qle, Qmult. simpl Qnum. simpl Qden.
    rewrite Z2Pos.id by exact HN. rewrite Pos2Z.inj_mul.
    set (P := 2 ^ Z.max 0 e) in *. set (N := 2 ^ Z.max 0 (- e)) in *.
    set (a := Qnum x) in *. set (d := Zpos (Qden x)) in *.
    assert (E1 : m * P * (d * 9007199254740992) = 9007199254740992 * (m * (d * P))) by ring.
    assert (E2 : a * 9007199254740993 * N = 9007199254740993 * (a * N)) by ring.
    rewrite E1, E2. change (2 ^ 52) with 4503599627370496 in Hs.
    set (U := m * (d * P)) in *. set (V := a * N) in *. set (W := d * P) in *.
    lia.
Qed.

Lemma to_int_between (q : Q) (k : Z) :
  0 <= k -> (inject_Z k <= q)%Q -> (q < inject_Z (k + 1))%Q -> to_int q = k.
Proof.
  intros Hk Hlo Hhi. unfold to_int. unfold Qle, Qlt in *. simpl in *.
  rewrite Z.mul_1_r in *.
  rewrite Z.quot_div_nonneg by nia.
  symmetry. apply (Z.div_unique (Qnum q) (Zpos (Qden q)) k (Qnum q - k * Zpos (Qden q))); lia.
Qed.

(** [int(n * 0.02)] is [n // 50] for every count below [2^51]. *)
Lemma int_of_two_percent (n : Z) :
  0 <= n < 2 ^ 51 -> to_int (fmul (of_int n) (b64 (2 # 100))) = n / 50.
Proof.
  intros Hn.
  change (b64 (2 # 100)) with (5764607523034235 # 288230376151711744)%Q.
  set (c := (5764607523034235 # 288230376151711744)%Q).
  set (up := (9007199254740993 # 9007199254740992)%Q).
  pose proof (Z.div_mod n 50 ltac:(lia)) as Hdm.
  pose proof (Z.mod_pos_bound n 50 ltac:(lia)) as Hr.
  set (k := n / 50) in *.
  assert (Hk : 0 <= k) by (apply Z.div_pos; lia).
  assert (Hc : (0 <= c)%Q) by (unfold Qle; simpl; lia).
  assert (Hlo1 : (inject_Z n <= of_int n)%Q).
  { apply b64_ge_int; [lia|apply Qle_refl]. }
  assert (Hhi1 : (of_int n <= inject_Z n * up)%Q).
  { apply b64_le_rel. unfold Qle. simpl. lia. }
  assert (H0 : (0 <= of_int n)%Q) by (apply of_int_nonneg; lia).
  unfold fmul. apply to_int_between; [exact Hk| |].
  - apply b64_ge_int; [lia|].
    apply Qle_trans with (inject_Z n * c)%Q.
    + unfold Qle, c. simpl. lia.
    + apply Qmult_le_compat_r; assumption.
  - apply Qle_lt_trans with (of_int n * c * up)%Q.
    + apply b64_le_rel. apply Qmult_le_0_compat; assumption.
    + apply Qle_lt_trans with (inject_Z n * up * c * up)%Q.
      * apply Qmult_le_compat_r; [|unfold Qle; simpl; lia].
        apply Qmult_le_compat_r; assumption.
      * unfold Qlt, up, c. simpl. lia.
Qed.

Lemma floor_two_percent (n : Z) : Qfloor ((2 # 100) * inject_Z n) = n / 50.
Proof.
  unfold Qfloor, Qmult. simpl Qnum. simpl Qden.
  Z.to_euclidean_division_equations. lia.
Qed.

(** C5. The table that [generate_timecards] returns has one row for
    each filled shift of the schedule plus [floor(0.02 * filled)]
    exception rows, hence at least as many rows as filled shifts (for
    every schedule with fewer than [2^51] filled shifts, beyond which a
    binary64 product no longer resolves the count). *)
Theorem timecards_row_count cfg employees schedule r df r' :
  len (filled (df_rows schedule)) < 2 ^ 51 ->
  generate_timecards cfg employees schedule r = Ok (df, r') ->
  let n := len (filled (df_rows schedule)) in
  len (df_rows df) = n + Qfloor ((2 # 100) * inject_Z n) /\
  n <= len (df_rows df).
Proof.
  intros Hsize Hgen n.
  destruct (generate_timecards_rows _ _ _ _ _ _ Hgen) as (tcs & excs & E & Htcs & Hexcs).
  apply Forall2_length in Htcs. apply Forall2_length in Hexcs.
  rewrite range_length in Hexcs. unfold exception_count in Hexcs.
  assert (Hn : 0 <= n) by (unfold n, len; lia).
  rewrite int_of_two_percent in Hexcs by (fold n; lia).
  fold n in Hexcs. rewrite floor_two_percent.
  assert (0 <= n / 50) by (apply Z.div_pos; lia).
  unfold len in *. rewrite E, length_app. lia.
Qed.

Lemma timecards_row_count_witness :
  exists df r',
    generate_timecards Sample.cfg Sample.roster Sample.schedule Sample.rng = Ok (df, r') /\
    len (filled (df_rows Sample.schedule)) = 100 /\
    len (df_rows df) = 100 + Qfloor ((2 # 100) * inject_Z 100) /\
    100 <= len (df_rows df).
Proof.
  destruct (generate_timecards Sample.cfg Sample.roster Sample.schedule Sample.rng)
    as [[df r']|e] eqn:E; [|vm_compute in E; discriminate E].
  exists df, r'. split; [reflexivity|].
  assert (Hn : len (filled (df_rows Sample.schedule)) = 100) by (vm_compute; reflexivity).
  split; [exact Hn|].
  rewrite <- Hn.
  apply (timecards_row_count Sample.cfg Sample.roster Sample.schedule Sample.rng df r');
    [rewrite Hn; reflexivity|exact E].
Defined.

(** ** Determinism of the entry point *)

Section Determinism.

Variable seeded_random : Z -> nat -> N.
Variable seeded_gauss : Z -> nat -> Q.
Variable seeded_interval : Z -> nat -> N.
Variable seeded_names : Z -> nat -> string.

Let run_main := main seeded_random seeded_gauss seeded_interval seeded_names.

(** After the three seeding calls nothing of the earlier state is left. *)
Lemma seeding_resets (s : Z) (r : Rng) :
  (_ <- random_seed seeded_random s ;;
   _ <- np_random_seed seeded_gauss seeded_interval s ;;
   Faker_seed seeded_names s) r
  = if (0 <=? s) && (s <? 2 ^ 32)
    then Ok (tt, mk_rng (seeded_random s) 0 (seeded_gauss s) (seeded_interval s) 0
                        (seeded_names s) 0)
    else Raise ValueError.
Proof.
  unfold bind, random_seed, np_random_seed, Faker_seed. simpl.
  destruct ((0 <=? s) && (s <? 2 ^ 32)); reflexivity.
Qed.

Lemma main_reads_config_and_date (w1 w2 : World) :
  config_file w1 = config_file w2 -> utc_today w1 = utc_today w2 ->
  run_main w1 = run_main w2.
Proof.
  intros Hcfg Hday. unfold run_main, main. rewrite Hcfg, Hday.
  unfold bind, random_seed, np_random_seed, Faker_seed. simpl.
  destruct ((0 <=? seed (config_file w2)) && (seed (config_file w2) <? 2 ^ 32));
    reflexivity.
Qed.

(** The roster does not depend on the date of the run. *)
Lemma main_roster_any_date (w1 w2 : World) t1 t2 :
  config_file w1 = config_file w2 ->
  run_main w1 = Ok t1 -> run_main w2 = Ok t2 ->
  employees_csv t1 = employees_csv t2.
Proof.
  intros Hcfg. unfold run_main, main. rewrite Hcfg.
  unfold bind, random_seed, np_random_seed, Faker_seed. simpl.
  destruct ((0 <=? seed (config_file w2)) && (seed (config_file w2) <? 2 ^ 32));
    [|discriminate].
  destruct (generate_employees (config_file w2) 70 _) as [[emps q]|e]; [|discriminate].
  destruct (generate_schedule (config_file w2) emps (utc_today w1 - _) q) as [[s1 q1]|e1];
    [|discriminate].
  destruct (generate_timecards (config_file w2) emps s1 q1) as [[c1 p1]|e1]; [|discriminate].
  destruct (generate_schedule (config_file w2) emps (utc_today w2 - _) q) as [[s2 q2]|e2];
    [|discriminate].
  destruct (generate_timecards (config_file w2) emps s2 q2) as [[c2 p2]|e2]; [|discriminate].
  intros H1 H2. injection H1 as <-. injection H2 as <-. reflexivity.
Qed.

End Determinism.

(** C1, as stated, fails: the start date of the schedule is read from
    the clock, so two runs with the same seed and configuration on
    different UTC dates write different schedules. *)
Lemma same_seed_same_tables_counterexample :
  ~ (forall seeded_random seeded_gauss seeded_interval seeded_names (w1 w2 : World),
       config_file w1 = config_file w2 ->
       main seeded_random seeded_gauss seeded_interval seeded_names w1
       = main seeded_random seeded_gauss seeded_interval seeded_names w2).
Proof.
  intros H.
  specialize (H Sample.tape_random Sample.tape_gauss Sample.tape_interval Sample.tape_names
                (mk_world Sample.cfg (Sample.monday + 1) Sample.rng)
                (mk_world Sample.cfg (Sample.monday + 2) Sample.rng) eq_refl).
  apply (f_equal (fun res => match res with
                             | Ok t => map schedule_date (take 1 (df_rows (schedules_csv t)))
                             | Raise _ => []
                             end)) in H.
  vm_compute in H. discriminate H.
Qed.

(** C1, amended. Two runs of [main] with the same configuration (seed,
    days, orgs, jobs, paycodes) on the same UTC date produce the same
    three tables, or fail alike, whatever state the random streams were
    in before. *)
Theorem same_seed_same_tables seeded_random seeded_gauss seeded_interval seeded_names
    (w1 w2 : World) :
  config_file w1 = config_file w2 -> utc_today w1 = utc_today w2 ->
  main seeded_random seeded_gauss seeded_interval seeded_names w1
  = main seeded_random seeded_gauss seeded_interval seeded_names w2.
Proof. apply main_reads_config_and_date. Qed.

Lemma same_seed_same_tables_witness :
  exists t,
    main Sample.tape_random Sample.tape_gauss Sample.tape_interval Sample.tape_names
         (mk_world Sample.cfg (Sample.monday + 1) Sample.rng) = Ok t /\
    main Sample.tape_random Sample.tape_gauss Sample.tape_interval Sample.tape_names
         (mk_world Sample.cfg (Sample.monday + 1) Sample.rng_other) = Ok t.
Proof.
  destruct (main Sample.tape_random Sample.tape_gauss Sample.tape_interval Sample.tape_names
              (mk_world Sample.cfg (Sample.monday + 1) Sample.rng)) as [t|e] eqn:E;
    [|vm_compute in E; discriminate E].
  exists t. split; [reflexivity|].
  rewrite <- E. symmetry.
  apply (same_seed_same_tables Sample.tape_random Sample.tape_gauss Sample.tape_interval
           Sample.tape_names
           (mk_world Sample.cfg (Sample.monday + 1) Sample.rng)
           (mk_world Sample.cfg (Sample.monday + 1) Sample.rng_other));
    reflexivity.
Defined.

(** * Further properties of the generators *)

(** ** The schedule, row by row *)

Lemma range_In (n d : Z) : In d (range n) -> 0 <= d < n.
Proof.
  unfold range. intros H. apply in_map_iff in H. destruct H as (k & <- & Hk).
  apply in_seq in Hk. lia.
Qed.

(** [indexed P rows]: the row at every position [k] satisfies [P k]. *)
Definition indexed {A} (P : nat -> A -> Prop) (rows : list A) : Prop :=
  forall k x, nth_error rows k = Some x -> P k x.

Lemma indexed_nil {A} (P : nat -> A -> Prop) : indexed P [].
Proof. intros [|k] x H; discriminate H. Qed.

Lemma indexed_snoc {A} (P : nat -> A -> Prop) (rows : list A) (x : A) :
  indexed P rows -> P (length rows) x -> indexed P (rows ++ [x]).
Proof.
  intros Hrows Hx k y Hk.
  destruct (Nat.lt_ge_cases k (length rows)) as [Hlt|Hge].
  - rewrite nth_error_app1 in Hk by exact Hlt. exact (Hrows k y Hk).
  - rewrite nth_error_app2 in Hk by exact Hge.
    destruct (k - length rows)%nat as [|i] eqn:Ei; simpl in Hk.
    + injection Hk as <-. replace k with (length rows) by lia. exact Hx.
    + destruct i; discriminate Hk.
Qed.

(** The row at position [k] of a schedule: built for a day of the
    horizon, an org path of the configuration that has employees, a
    bucket and a start hour of the bucket, with the shift number
    [500000 + k]. *)
Definition scheduled_row (cfg : Config) (employees : DataFrame Employee)
    (start_date : date) (k : nat) (s : Shift) : Prop :=
  exists d org_path bp start_hour e0,
    0 <= d < days cfg /\ In org_path (orgs cfg) /\ In bp buckets /\
    In start_hour (start_hours (fst bp)) /\
    In e0 (df_rows employees) /\ e_org_path e0 = org_path /\
    ((exists e, In e (df_rows employees) /\ e_org_path e = org_path /\
        s = filled_shift (start_date + d) org_path (dept_of org_path) (fst bp)
              start_hour e (500000 + Z.of_nat k))
     \/
     (exists job, In job (default [gen_code_only] (jobs cfg !! dept_of org_path)) /\
        s = open_shift_row (start_date + d) org_path (dept_of org_path) (fst bp)
              start_hour job (500000 + Z.of_nat k))).

Definition schedule_state (cfg : Config) (employees : DataFrame Employee)
    (start_date : date) (st : list Shift * Z) : Prop :=
  snd st = 500000 + len (fst st) /\
  indexed (scheduled_row cfg employees start_date) (fst st).

Lemma schedule_state_snoc cfg employees start_date st s :
  schedule_state cfg employees start_date st ->
  scheduled_row cfg employees start_date (length (fst st)) s ->
  schedule_state cfg employees start_date (fst st ++ [s], snd st + 1).
Proof.
  intros [Hid Hrows] Hs. split; simpl.
  - unfold len in *. rewrite length_app. simpl. lia.
  - apply indexed_snoc; assumption.
Qed.

Lemma bucket_shifts_state cfg employees start_date d org_path demand bp st r st' r' :
  0 <= d < days cfg -> In org_path (orgs cfg) -> In bp buckets ->
  schedule_state cfg employees start_date st ->
  bucket_shifts cfg employees (start_date + d) org_path (dept_of org_path) demand bp st r
    = Ok (st', r') ->
  schedule_state cfg employees start_date st'.
Proof.
  intros Hd Horg Hbp Hst H. unfold bucket_shifts in H.
  run_inv H.
  match goal with
  | H : match List.filter ?f ?l with [] => _ | _ :: _ => _ end _ = Ok _ |- _ =>
      destruct (List.filter f l) as [|e0 org_emps] eqn:Efilter; [|run_inv H]
  end.
  { match goal with H : ret _ _ = Ok _ |- _ => apply ret_ok in H; destruct H as [-> _] end.
    exact Hst. }
  assert (He0 : In e0 (df_rows employees) /\ e_org_path e0 = org_path).
  { assert (Hin : In e0 (e0 :: org_emps)) by (left; reflexivity).
    rewrite <- Efilter in Hin. apply filter_In in Hin. destruct Hin as [Hin Heq].
    apply String.eqb_eq in Heq. auto. }
  destruct He0 as [He0 Horg0].
  match goal with
  | Hsample : df_sample _ _ _ = Ok (?chosen, _),
    Hchoice : random_choice (start_hours _) _ = Ok (?start_hour, _),
    Hfilled : for_each ?chosen _ st _ = Ok (?st1, _),
    Hopen : for_each (range _) _ ?st1 _ = Ok (st', r') |- _ =>
      pose proof (random_choice_In _ _ _ _ Hchoice) as Hhour;
      pose proof (df_sample_In _ _ _ _ _ Hsample) as Hchosen;
      revert Hopen;
      apply (for_each_invariant (schedule_state cfg employees start_date));
      [|revert Hfilled;
        apply (for_each_invariant (schedule_state cfg employees start_date));
        [|exact Hst]]
  end.
  - intros i s0 q0 s1 q1 _ Hs0 Hbody. run_inv Hbody. subst s1.
    apply schedule_state_snoc; [exact Hs0|].
    match goal with H : open_shift _ _ _ _ _ _ _ _ = Ok _ |- _ =>
      apply open_shift_ok in H; destruct H as (job & Hjob & ->) end.
    destruct Hs0 as [Hid _]. rewrite Hid. unfold len.
    eexists d, org_path, bp, _, e0. repeat (split; [eassumption|]).
    right. exists job. auto.
  - intros e s0 q0 s1 q1 He Hs0 Hbody. apply ret_ok in Hbody. destruct Hbody as [-> _].
    apply schedule_state_snoc; [exact Hs0|].
    apply Hchosen in He. rewrite <- Efilter in He.
    apply filter_In in He. destruct He as [He Heq]. apply String.eqb_eq in Heq.
    destruct Hs0 as [Hid _]. rewrite Hid. unfold len.
    eexists d, org_path, bp, _, e0. repeat (split; [eassumption|]).
    left. exists e. auto.
Qed.

Lemma generate_schedule_indexed cfg employees start_date r df r' :
  generate_schedule cfg employees start_date r = Ok (df, r') ->
  indexed (scheduled_row cfg employees start_date) (df_rows df).
Proof.
  unfold generate_schedule. intros H. run_inv H. subst df. simpl.
  match goal with H : for_each _ _ _ _ = Ok _ |- _ => revert H end.
  intros H.
  apply (for_each_invariant (schedule_state cfg employees start_date)) in H.
  - destruct H as [_ H]. exact H.
  - intros d s0 q0 s1 q1 Hd Hs0. unfold day_shifts. apply range_In in Hd.
    apply (for_each_invariant (schedule_state cfg employees start_date)); [|exact Hs0].
    intros org_path s2 q2 s3 q3 Horg Hs2 Hbody. unfold org_shifts in Hbody.
    run_inv Hbody.
    match goal with H : for_each _ _ _ _ = Ok _ |- _ => revert H end.
    apply (for_each_invariant (schedule_state cfg employees start_date)); [|exact Hs2].
    intros bp s4 q4 s5 q5 Hbp Hs4. apply bucket_shifts_state; assumption.
  - split; [reflexivity|apply indexed_nil].
Qed.

Lemma append_inj_r (p a b : string) : String.append p a = String.append p b -> a = b.
Proof. induction p as [|c p IH]; simpl; intros H; [exact H|]. injection H as H. auto. Qed.

(** Ids made of a prefix and the position counted from a base are
    pairwise distinct. *)
Lemma counted_ids_NoDup {A} (id : A -> string) (prefix : string) (base : Z) (rows : list A) :
  (forall k x, nth_error rows k = Some x ->
     id x = String.append prefix (string_of_Z (base + Z.of_nat k))) ->
  List.NoDup (map id rows).
Proof.
  intros Hid. apply List.NoDup_nth_error. intros i j Hi Hij.
  rewrite length_map in Hi. rewrite !nth_error_map in Hij.
  destruct (nth_error rows i) as [xi|] eqn:Ei; [|apply nth_error_None in Ei; lia].
  destruct (nth_error rows j) as [xj|] eqn:Ej; [|discriminate Hij].
  simpl in Hij. injection Hij as Hij.
  rewrite (Hid i xi Ei), (Hid j xj Ej) in Hij.
  apply append_inj_r, string_of_Z_inj in Hij. lia.
Qed.

Lemma scheduled_row_shift_id cfg employees start_date k s :
  scheduled_row cfg employees start_date k s ->
  shift_id s = String.append "S" (string_of_Z (500000 + Z.of_nat k)).
Proof.
  intros (d & org_path & bp & h & e0 & _ & _ & _ & _ & _ & _ &
          [(e & _ & _ & ->)|(job & _ & ->)]); reflexivity.
Qed.

(** X1. The k-th row (from 0) of the schedule has the shift id
    [S<500000 + k>]; the shift ids of a schedule are pairwise distinct. *)
Theorem shift_ids_count_up cfg employees start_date r df r' :
  generate_schedule cfg employees start_date r = Ok (df, r') ->
  (forall k s, nth_error (df_rows df) k = Some s ->
     shift_id s = String.append "S" (string_of_Z (500000 + Z.of_nat k))) /\
  List.NoDup (map shift_id (df_rows df)).
Proof.
  intros Hgen. pose proof (generate_schedule_indexed _ _ _ _ _ _ Hgen) as Hrows.
  assert (Hids : forall k s, nth_error (df_rows df) k = Some s ->
            shift_id s = String.append "S" (string_of_Z (500000 + Z.of_nat k))).
  { intros k s Hk. exact (scheduled_row_shift_id _ _ _ _ _ (Hrows k s Hk)). }
  split; [exact Hids|]. exact (counted_ids_NoDup shift_id "S" 500000 _ Hids).
Qed.

Lemma shift_ids_count_up_witness :
  exists df r',
    generate_schedule Sample.cfg Sample.roster Sample.monday Sample.rng = Ok (df, r') /\
    (forall k s, nth_error (df_rows df) k = Some s ->
       shift_id s = String.append "S" (string_of_Z (500000 + Z.of_nat k))) /\
    List.NoDup (map shift_id (df_rows df)).
Proof.
  destruct (generate_schedule Sample.cfg Sample.roster Sample.monday Sample.rng)
    as [[df r']|e] eqn:E.
  - exists df, r'. split; [reflexivity|].
    exact (shift_ids_count_up _ _ _ _ _ _ E).
  - vm_compute in E. discriminate E.
Defined.

Lemma scheduled_hours_value (dept : string) :
  (fdiv (total_seconds (hours (shift_hours dept))) (of_int 3600)
   == inject_Z (shift_hours dept))%Q.
Proof. unfold shift_hours. destruct (String.eqb dept "Nursing"); vm_compute; reflexivity. Qed.

(** X2. Every row of the schedule is dated within the horizon
    [start_date .. start_date + days - 1], starts on its date at a full
    hour that is 6, 7, 14, 15, 22 or 23, ends 12 hours later in the
    Nursing department and 8 hours later in any other, and has exactly
    that many scheduled hours. *)
Theorem shift_window cfg employees start_date r df r' :
  generate_schedule cfg employees start_date r = Ok (df, r') ->
  forall s, In s (df_rows df) ->
    let span := if String.eqb (dept_of (s_org_path s)) "Nursing" then 12 else 8 in
    start_date <= schedule_date s < start_date + days cfg /\
    dt_date (shift_start s) = schedule_date s /\
    In (dt_hour (shift_start s)) [6; 7; 14; 15; 22; 23] /\
    dt_minute (shift_start s) = 0 /\ dt_second (shift_start s) = 0 /\
    dt_seconds (shift_end s) = dt_seconds (shift_start s) + span * 3600 /\
    (scheduled_hours s == inject_Z span)%Q.
Proof.
  intros Hgen s Hs. apply In_nth_error in Hs. destruct Hs as (k & Hk).
  pose proof (generate_schedule_indexed _ _ _ _ _ _ Hgen k s Hk) as Hrow.
  destruct Hrow as (d & org_path & bp & h & e0 & Hd & _ & Hbp & Hh & _ & _ & Hs).
  assert (Hhour : In h [6; 7; 14; 15; 22; 23]).
  { simpl in Hbp. destruct Hbp as [<-|[<-|[<-|[]]]]; simpl in Hh;
      destruct Hh as [<-|[<-|[]]]; simpl; tauto. }
  destruct Hs as [(e & _ & _ & ->)|(job & _ & ->)]; simpl;
    (split; [lia|]); (split; [reflexivity|]); (split; [exact Hhour|]);
    (split; [reflexivity|]); (split; [reflexivity|]);
    rewrite dt_seconds_add, dt_sub_add;
    (split; [unfold hours, shift_hours; destruct (String.eqb _ _); lia|]);
    rewrite scheduled_hours_value; unfold shift_hours;
    destruct (String.eqb _ _); reflexivity.
Qed.

Lemma shift_window_witness :
  exists df r',
    generate_schedule Sample.cfg Sample.roster Sample.monday Sample.rng = Ok (df, r') /\
    forall s, In s (df_rows df) ->
      let span := if String.eqb (dept_of (s_org_path s)) "Nursing" then 12 else 8 in
      Sample.monday <= schedule_date s < Sample.monday + days Sample.cfg /\
      dt_date (shift_start s) = schedule_date s /\
      In (dt_hour (shift_start s)) [6; 7; 14; 15; 22; 23] /\
      dt_minute (shift_start s) = 0 /\ dt_second (shift_start s) = 0 /\
      dt_seconds (shift_end s) = dt_seconds (shift_start s) + span * 3600 /\
      (scheduled_hours s == inject_Z span)%Q.
Proof.
  destruct (generate_schedule Sample.cfg Sample.roster Sample.monday Sample.rng)
    as [[df r']|e] eqn:E.
  - exists df, r'. split; [reflexivity|].
    exact (shift_window _ _ _ _ _ _ E).
  - vm_compute in E. discriminate E.
Defined.

(** X3. Every row of the schedule, open or filled, is for an org path
    of the configuration that has at least one employee in the roster:
    an org path without employees gets no shift at all. *)
Theorem shifts_only_for_staffed_orgs cfg employees start_date r df r' :
  generate_schedule cfg employees start_date r = Ok (df, r') ->
  forall s, In s (df_rows df) ->
    In (s_org_path s) (orgs cfg) /\
    exists e, In e (df_rows employees) /\ e_org_path e = s_org_path s.
Proof.
  intros Hgen s Hs. apply In_nth_error in Hs. destruct Hs as (k & Hk).
  pose proof (generate_schedule_indexed _ _ _ _ _ _ Hgen k s Hk) as Hrow.
  destruct Hrow as (d & org_path & bp & h & e0 & _ & Horg & _ & _ & He0 & Ho0 &
                    [(e & _ & _ & ->)|(job & _ & ->)]); simpl;
    (split; [exact Horg|exists e0; auto]).
Qed.

Lemma shifts_only_for_staffed_orgs_witness :
  exists df r',
    generate_schedule Sample.cfg Sample.roster Sample.monday Sample.rng = Ok (df, r') /\
    forall s, In s (df_rows df) ->
      In (s_org_path s) (orgs Sample.cfg) /\
      exists e, In e (df_rows Sample.roster) /\ e_org_path e = s_org_path s.
Proof.
  destruct (generate_schedule Sample.cfg Sample.roster Sample.monday Sample.rng)
    as [[df r']|e] eqn:E.
  - exists df, r'. split; [reflexivity|].
    exact (shifts_only_for_staffed_orgs _ _ _ _ _ _ E).
  - vm_compute in E. discriminate E.
Defined.

(** X4. A filled shift is assigned to an employee of the roster who
    belongs to the shift's org path, and carries that employee's job
    code. *)
Theorem filled_shift_employee cfg employees start_date r df r' :
  generate_schedule cfg employees start_date r = Ok (df, r') ->
  forall s, In s (df_rows df) -> is_open_shift s = false ->
    exists e, In e (df_rows employees) /\
      s_employee_id s = Some (employee_id e) /\
      e_org_path e = s_org_path s /\
      s_job_code s = e_job_code e.
Proof.
  intros Hgen s Hs Hfilled. apply In_nth_error in Hs. destruct Hs as (k & Hk).
  pose proof (generate_schedule_indexed _ _ _ _ _ _ Hgen k s Hk) as Hrow.
  destruct Hrow as (d & org_path & bp & h & e0 & _ & _ & _ & _ & _ & _ &
                    [(e & He & Ho & ->)|(job & _ & ->)]); simpl in *.
  - exists e. auto.
  - discriminate Hfilled.
Qed.

Lemma filled_shift_employee_witness :
  exists df r',
    generate_schedule Sample.cfg Sample.roster Sample.monday Sample.rng = Ok (df, r') /\
    forall s, In s (df_rows df) -> is_open_shift s = false ->
      exists e, In e (df_rows Sample.roster) /\
        s_employee_id s = Some (employee_id e) /\
        e_org_path e = s_org_path s /\
        s_job_code s = e_job_code e.
Proof.
  destruct (generate_schedule Sample.cfg Sample.roster Sample.monday Sample.rng)
    as [[df r']|e] eqn:E.
  - exists df, r'. split; [reflexivity|].
    exact (filled_shift_employee _ _ _ _ _ _ E).
  - vm_compute in E. discriminate E.
Defined.

(** X5. The job code of an open shift is the code of a job the catalog
    lists for the shift's department, and "GEN" when the catalog does
    not list the department. *)
Theorem open_shift_job cfg employees start_date r df r' :
  generate_schedule cfg employees start_date r = Ok (df, r') ->
  forall s, In s (df_rows df) -> is_open_shift s = true ->
    match jobs cfg !! dept_of (s_org_path s) with
    | Some dept_jobs => In (s_job_code s) (map job_code dept_jobs)
    | None => s_job_code s = "GEN"
    end.
Proof.
  intros Hgen s Hs Hopen. apply In_nth_error in Hs. destruct Hs as (k & Hk).
  pose proof (generate_schedule_indexed _ _ _ _ _ _ Hgen k s Hk) as Hrow.
  destruct Hrow as (d & org_path & bp & h & e0 & _ & _ & _ & _ & _ & _ &
                    [(e & He & Ho & ->)|(job & Hjob & ->)]); simpl in *.
  - discriminate Hopen.
  - destruct (jobs cfg !! dept_of org_path) as [dept_jobs|]; simpl in Hjob.
    + apply in_map. exact Hjob.
    + destruct Hjob as [<-|[]]. reflexivity.
Qed.

Lemma open_shift_job_witness :
  exists df r',
    generate_schedule Sample.cfg Sample.roster Sample.monday Sample.rng = Ok (df, r') /\
    forall s, In s (df_rows df) -> is_open_shift s = true ->
      match jobs Sample.cfg !! dept_of (s_org_path s) with
      | Some dept_jobs => In (s_job_code s) (map job_code dept_jobs)
      | None => s_job_code s = "GEN"
      end.
Proof.
  destruct (generate_schedule Sample.cfg Sample.roster Sample.monday Sample.rng)
    as [[df r']|e] eqn:E.
  - exists df, r'. split; [reflexivity|].
    exact (open_shift_job _ _ _ _ _ _ E).
  - vm_compute in E. discriminate E.
Defined.

(** ** Edge cases of the schedule *)

Lemma bind_raise {A B} (m : M A) (f : A -> M B) r e :
  m r = Raise e -> bind m f r = Raise e.
Proof. intros H. unfold bind. rewrite H. reflexivity. Qed.

Lemma bind_step {A B} (m : M A) (f : A -> M B) r a r1 :
  m r = Ok (a, r1) -> bind m f r = f a r1.
Proof. intros H. unfold bind. rewrite H. reflexivity. Qed.




Lemma bucket_shifts_no_columns cfg employees day org_path dept demand bp st r :
  df_columns employees = false ->
  bucket_shifts cfg employees day org_path dept demand bp st r = Raise KeyError.
Proof.
  intros Hcols. unfold bucket_shifts, random_uniform, random_random, column.
  unfold bind at 1. unfold bind at 1. unfold ret at 1.
  unfold bind at 1. rewrite Hcols. reflexivity.
Qed.

(** X7. On a roster frame without columns, such as the frame of no
    employees, [generate_schedule] raises KeyError as soon as there is
    a day and an org path to schedule: the [org_path] column it selects
    does not exist. *)
Theorem schedule_of_columnless_roster cfg employees start_date r :
  df_columns employees = false -> 0 < days cfg -> orgs cfg <> [] ->
  generate_schedule cfg employees start_date r = Raise KeyError.
Proof.
  intros Hcols Hdays Horgs. unfold generate_schedule. apply bind_raise.
  unfold range. destruct (Z.to_nat (days cfg)) as [|n] eqn:En; [lia|].
  simpl seq. simpl map. simpl for_each. apply bind_raise.
  unfold day_shifts. destruct (orgs cfg) as [|org_path rest]; [congruence|].
  simpl for_each. apply bind_raise.
  unfold org_shifts, np_random_normal. unfold bind at 1.
  unfold buckets. simpl for_each. apply bind_raise.
  apply bucket_shifts_no_columns. exact Hcols.
Qed.

Lemma schedule_of_columnless_roster_witness :
  generate_schedule Sample.cfg (pd_DataFrame []) Sample.monday Sample.rng = Raise KeyError.
Proof.
  apply (schedule_of_columnless_roster Sample.cfg (pd_DataFrame []) Sample.monday Sample.rng).
  - reflexivity.
  - simpl. lia.
  - discriminate.
Defined.

(** ** The timecards table, row by row *)

(** The appending loop builds the row of the k-th element with the
    counter it started with plus [k]. *)
Lemma for_each_rows_counted {A B} (row : A -> Z -> M B) (l : list A) :
  forall st r st' r',
  for_each l (fun a st => b <- row a (snd st) ;; ret (fst st ++ [b], snd st + 1)) st r
    = Ok (st', r') ->
  exists new, fst st' = fst st ++ new /\ snd st' = snd st + len l /\
    length new = length l /\
    forall k b, nth_error new k = Some b ->
      exists a q q', nth_error l k = Some a /\ row a (snd st + Z.of_nat k) q = Ok (b, q').
Proof.
  induction l as [|a l IH]; intros st r st' r' H; simpl in H.
  - apply ret_ok in H. destruct H as [-> _]. exists [].
    rewrite app_nil_r. unfold len. simpl.
    repeat split; try lia. intros [|k] b Hk; discriminate Hk.
  - apply bind_ok in H. destruct H as (st1 & r1 & Hbody & Hrest).
    apply bind_ok in Hbody. destruct Hbody as (b & r2 & Hrow & Hret).
    apply ret_ok in Hret. destruct Hret as [-> _].
    apply IH in Hrest. destruct Hrest as (new & E1 & E2 & E3 & Hnew).
    simpl in E1, E2. exists (b :: new).
    split; [rewrite E1, <- app_assoc; reflexivity|].
    split; [unfold len in *; simpl length; lia|].
    split; [simpl; lia|].
    intros [|k] b' Hk; simpl in Hk.
    + injection Hk as <-. exists a, r, r2. rewrite Z.add_0_r. auto.
    + destruct (Hnew k b' Hk) as (a' & q & q' & Ha' & Hrow').
      exists a', q, q'. split; [exact Ha'|].
      replace (snd st + Z.of_nat (S k)) with (snd st + 1 + Z.of_nat k) by lia.
      exact Hrow'.
Qed.

(** The table is the timecards of the filled shifts, in order and
    numbered from 900000, followed by the exception entries. *)
Lemma generate_timecards_counted cfg employees schedule r df r' :
  generate_timecards cfg employees schedule r = Ok (df, r') ->
  exists tcs excs,
    df_rows df = tcs ++ excs /\
    length tcs = length (filled (df_rows schedule)) /\
    length excs = Z.to_nat (exception_count (filled (df_rows schedule))) /\
    (forall k t, nth_error tcs k = Some t ->
       exists s q q', nth_error (filled (df_rows schedule)) k = Some s /\
         shift_timecard employees s (900000 + Z.of_nat k) q = Ok (t, q')) /\
    (forall k t, nth_error excs k = Some t ->
       exists q q',
         exception_timecard employees (filled (df_rows schedule))
           (900000 + len (filled (df_rows schedule)) + Z.of_nat k) q
           = Ok (t, q')).
Proof.
  unfold generate_timecards. intros H. run_inv H. subst df. simpl.
  match goal with
  | H1 : for_each (filled _) _ _ _ = Ok (?st1, _),
    H2 : for_each (range _) _ ?st1 _ = Ok (?st2, _) |- _ =>
      apply (for_each_rows_counted (shift_timecard employees)) in H1;
      apply (for_each_rows_counted
               (fun _ id => exception_timecard employees (filled (df_rows schedule)) id)) in H2;
      destruct H1 as (tcs & E1 & N1 & L1 & R1); destruct H2 as (excs & E2 & _ & L2 & R2)
  end.
  exists tcs, excs. simpl in E1, N1. rewrite E2, E1.
  split; [reflexivity|]. split; [exact L1|].
  split; [rewrite L2; apply range_length|]. split.
  - intros k t Hk. destruct (R1 k t Hk) as (s & q & q' & Hs & Hrow). simpl in Hrow. eauto.
  - intros k t Hk. destruct (R2 k t Hk) as (i & q & q' & _ & Hrow).
    rewrite N1 in Hrow. eauto.
Qed.

Lemma shift_timecard_id employees s tc_id q t q' :
  shift_timecard employees s tc_id q = Ok (t, q') ->
  timecard_entry_id t = String.append "T" (string_of_Z tc_id).
Proof. unfold shift_timecard. intros H. run_inv H. subst t. reflexivity. Qed.

Lemma exception_timecard_id employees shifts tc_id q t q' :
  exception_timecard employees shifts tc_id q = Ok (t, q') ->
  timecard_entry_id t = String.append "T" (string_of_Z tc_id).
Proof.
  unfold exception_timecard. intros H. run_inv H.
  match goal with H : match ?es with [] => _ | _ :: _ => _ end _ = Ok _ |- _ =>
    destruct es as [|e es]; [destruct (raise_ok _ _ _ H)|run_inv H] end.
  match goal with H : match ?ds with [] => _ | _ :: _ => _ end _ = Ok _ |- _ =>
    destruct ds as [|s0 ds]; [destruct (raise_ok _ _ _ H)|run_inv H] end.
  subst t. reflexivity.
Qed.

(** X8. The k-th row (from 0) of the timecards table, timecard or
    exception entry, has the id [T<900000 + k>]; the ids of the table
    are pairwise distinct. *)
Theorem timecard_ids_count_up cfg employees schedule r df r' :
  generate_timecards cfg employees schedule r = Ok (df, r') ->
  (forall k t, nth_error (df_rows df) k = Some t ->
     timecard_entry_id t = String.append "T" (string_of_Z (900000 + Z.of_nat k))) /\
  List.NoDup (map timecard_entry_id (df_rows df)).
Proof.
  intros Hgen.
  destruct (generate_timecards_counted _ _ _ _ _ _ Hgen)
    as (tcs & excs & E & L1 & _ & R1 & R2).
  assert (Hids : forall k t, nth_error (df_rows df) k = Some t ->
            timecard_entry_id t = String.append "T" (string_of_Z (900000 + Z.of_nat k))).
  { intros k t Hk. rewrite E in Hk.
    destruct (Nat.lt_ge_cases k (length tcs)) as [Hlt|Hge].
    - rewrite nth_error_app1 in Hk by exact Hlt.
      destruct (R1 k t Hk) as (s & q & q' & _ & Hrow).
      exact (shift_timecard_id _ _ _ _ _ _ Hrow).
    - rewrite nth_error_app2 in Hk by exact Hge.
      destruct (R2 _ t Hk) as (q & q' & Hrow).
      rewrite (exception_timecard_id _ _ _ _ _ _ Hrow).
      f_equal. f_equal. unfold len. rewrite <- L1. lia. }
  split; [exact Hids|]. exact (counted_ids_NoDup timecard_entry_id "T" 900000 _ Hids).
Qed.

Lemma timecard_ids_count_up_witness :
  exists df r',
    generate_timecards Sample.cfg Sample.roster Sample.schedule Sample.rng = Ok (df, r') /\
    (forall k t, nth_error (df_rows df) k = Some t ->
       timecard_entry_id t = String.append "T" (string_of_Z (900000 + Z.of_nat k))) /\
    List.NoDup (map timecard_entry_id (df_rows df)).
Proof.
  destruct (generate_timecards Sample.cfg Sample.roster Sample.schedule Sample.rng)
    as [[df r']|e] eqn:E.
  - exists df, r'. split; [reflexivity|].
    exact (timecard_ids_count_up _ _ _ _ _ _ E).
  - vm_compute in E. discriminate E.
Defined.

Lemma draw_paycode_ok dept worked q pc q' :
  draw_paycode dept worked q = Ok (pc, q') ->
  In pc ["REG"; "OT"; "CALL"] /\
  (String.eqb dept "Nursing" = false -> In pc ["REG"; "OT"]) /\
  (String.eqb dept "Nursing" = true -> flt (of_int 12) worked = true -> pc = "OT").
Proof.
  unfold draw_paycode. intros H.
  destruct (String.eqb dept "Nursing"); destruct (flt (of_int 12) worked);
    cbn [andb] in H.
  - apply ret_ok in H. destruct H as [-> _]. simpl. intuition discriminate.
  - run_inv H.
    match goal with H : (if ?c then _ else _) _ = Ok _ |- _ => destruct c end.
    + match goal with H : random_choice _ _ = Ok _ |- _ =>
        apply random_choice_In in H end.
      intuition discriminate.
    + match goal with H : ret _ _ = Ok _ |- _ =>
        apply ret_ok in H; destruct H as [-> _] end.
      simpl. intuition discriminate.
  - run_inv H.
    match goal with H : (if ?c then _ else _) _ = Ok _ |- _ => destruct c end;
      match goal with H : ret _ _ = Ok _ |- _ =>
        apply ret_ok in H; destruct H as [-> _] end;
      simpl; intuition discriminate.
  - run_inv H.
    match goal with H : (if ?c then _ else _) _ = Ok _ |- _ => destruct c end;
      match goal with H : ret _ _ = Ok _ |- _ =>
        apply ret_ok in H; destruct H as [-> _] end;
      simpl; intuition discriminate.
Qed.

(** What the timecard of a filled shift takes from the shift. *)
Lemma shift_timecard_fields employees s tc_id q t q' :
  shift_timecard employees s tc_id q = Ok (t, q') ->
  s_employee_id s = Some (t_employee_id t) /\
  work_date t = schedule_date s /\
  t_org_path t = s_org_path s /\
  t_job_code t = s_job_code s /\
  scheduled_shift_id t = Some (shift_id s) /\
  dt_seconds (shift_start s) - 15 * 60 <= dt_seconds (clock_in t) /\
  dt_seconds (clock_out t) <= dt_seconds (shift_end s) + 30 * 60 /\
  In (paycode t) ["REG"; "OT"; "CALL"] /\
  (String.eqb (dept_of (s_org_path s)) "Nursing" = false -> In (paycode t) ["REG"; "OT"]).
Proof.
  unfold shift_timecard. intros H. run_inv H. subst t. simpl.
  match goal with H : draw_paycode _ _ _ = Ok _ |- _ =>
    apply draw_paycode_ok in H; destruct H as (Hpc1 & Hpc2 & _) end.
  destruct (s_employee_id s) as [id|].
  - match goal with H : ret id _ = Ok _ |- _ =>
      apply ret_ok in H; destruct H as [-> _] end.
    rewrite !dt_seconds_add. unfold minutes.
    repeat split; try reflexivity; try lia; assumption.
  - match goal with H : raise _ _ = Ok _ |- _ => destruct (raise_ok _ _ _ H) end.
Qed.

(** X9. The timecard of the k-th filled shift is the k-th row of the
    table. It carries the shift's employee id, date, org path, job code
    and shift id, and its clock-out is at most 30 minutes after the
    scheduled end. *)
Theorem timecard_of_filled_shift cfg employees schedule r df r' :
  generate_timecards cfg employees schedule r = Ok (df, r') ->
  forall k s, nth_error (filled (df_rows schedule)) k = Some s ->
    exists t, nth_error (df_rows df) k = Some t /\
      s_employee_id s = Some (t_employee_id t) /\
      work_date t = schedule_date s /\
      t_org_path t = s_org_path s /\
      t_job_code t = s_job_code s /\
      scheduled_shift_id t = Some (shift_id s) /\
      dt_seconds (clock_out t) <= dt_seconds (shift_end s) + 30 * 60.
Proof.
  intros Hgen k s Hk.
  destruct (generate_timecards_counted _ _ _ _ _ _ Hgen)
    as (tcs & excs & E & L1 & _ & R1 & _).
  assert (Hlt : (k < length tcs)%nat).
  { rewrite L1. apply nth_error_Some. congruence. }
  destruct (nth_error tcs k) as [t|] eqn:Et; [|apply nth_error_None in Et; lia].
  exists t. split; [rewrite E, nth_error_app1 by exact Hlt; exact Et|].
  destruct (R1 k t Et) as (s' & q & q' & Hs' & Hrow).
  assert (s' = s) as -> by congruence.
  apply shift_timecard_fields in Hrow. tauto.
Qed.

Lemma timecard_of_filled_shift_witness :
  exists df r',
    generate_timecards Sample.cfg Sample.roster Sample.schedule Sample.rng = Ok (df, r') /\
    forall k s, nth_error (filled (df_rows Sample.schedule)) k = Some s ->
      exists t, nth_error (df_rows df) k = Some t /\
        s_employee_id s = Some (t_employee_id t) /\
        work_date t = schedule_date s /\
        t_org_path t = s_org_path s /\
        t_job_code t = s_job_code s /\
        scheduled_shift_id t = Some (shift_id s) /\
        dt_seconds (clock_out t) <= dt_seconds (shift_end s) + 30 * 60.
Proof.
  destruct (generate_timecards Sample.cfg Sample.roster Sample.schedule Sample.rng)
    as [[df r']|e] eqn:E.
  - exists df, r'. split; [reflexivity|].
    exact (timecard_of_filled_shift _ _ _ _ _ _ E).
  - vm_compute in E. discriminate E.
Defined.

Lemma exception_hours_value (dur : Z) :
  In dur [4; 6; 8] ->
  (round2 (fdiv (total_seconds (hours dur)) (of_int 3600)) == inject_Z dur)%Q.
Proof.
  simpl. intros [<-|[<-|[<-|[]]]]; vm_compute; reflexivity.
Qed.

(** What an exception entry is made of. *)
Lemma exception_timecard_fields employees shifts tc_id q t q' :
  exception_timecard employees shifts tc_id q = Ok (t, q') ->
  scheduled_shift_id t = None /\
  In (paycode t) ["REG"; "OT"; "CALL"] /\
  exists e s start_hour dur,
    In e (df_rows employees) /\ In s shifts /\
    In start_hour [5; 9; 13; 17; 21] /\ In dur [4; 6; 8] /\
    t_employee_id t = employee_id e /\
    t_org_path t = e_org_path e /\
    t_job_code t = e_job_code e /\
    work_date t = schedule_date s /\
    clock_in t = mk_datetime (schedule_date s) start_hour 0 0 /\
    dt_seconds (clock_out t) = dt_seconds (clock_in t) + dur * 3600 /\
    (worked_hours t == inject_Z dur)%Q.
Proof.
  unfold exception_timecard. intros H. run_inv H.
  match goal with H : df_sample (df_rows employees) 1 _ = Ok (?es, _) |- _ =>
    pose proof (df_sample_In _ _ _ _ _ H) as Hes; destruct es as [|e es] end.
  { match goal with H : raise _ _ = Ok _ |- _ => destruct (raise_ok _ _ _ H) end. }
  match goal with H : bind _ _ _ = Ok _ |- _ => run_inv H end.
  match goal with H : df_sample shifts 1 _ = Ok (?ds, _) |- _ =>
    pose proof (df_sample_In _ _ _ _ _ H) as Hds; destruct ds as [|s ds] end.
  { match goal with H : raise _ _ = Ok _ |- _ => destruct (raise_ok _ _ _ H) end. }
  match goal with H : bind _ _ _ = Ok _ |- _ => run_inv H end.
  repeat match goal with H : random_choice _ _ = Ok _ |- _ =>
    apply random_choice_In in H end.
  subst t. simpl. split; [reflexivity|]. split; [assumption|].
  match goal with
  | Hh : In ?h [5; 9; 13; 17; 21], Hd : In ?dur [4; 6; 8] |- _ =>
      exists e, s, h, dur
  end.
  split; [apply Hes; left; reflexivity|]. split; [apply Hds; left; reflexivity|].
  repeat (split; [first [assumption|reflexivity]|]).
  split.
  - rewrite dt_seconds_add. unfold hours. reflexivity.
  - rewrite dt_sub_add. apply exception_hours_value. assumption.
Qed.

(** X10. Every paycode of the timecards table is REG, OT or CALL, and
    the timecard of a filled shift outside the Nursing department is
    never CALL. *)
Theorem paycodes_of_timecards cfg employees schedule r df r' :
  generate_timecards cfg employees schedule r = Ok (df, r') ->
  forall t, In t (df_rows df) ->
    In (paycode t) ["REG"; "OT"; "CALL"] /\
    (scheduled_shift_id t <> None ->
     String.eqb (dept_of (t_org_path t)) "Nursing" = false ->
     In (paycode t) ["REG"; "OT"]).
Proof.
  intros Hgen t Ht.
  destruct (generate_timecards_counted _ _ _ _ _ _ Hgen)
    as (tcs & excs & E & _ & _ & R1 & R2).
  rewrite E in Ht. apply in_app_or in Ht. destruct Ht as [Ht|Ht];
    apply In_nth_error in Ht; destruct Ht as (k & Hk).
  - destruct (R1 k t Hk) as (s & q & q' & _ & Hrow).
    apply shift_timecard_fields in Hrow.
    destruct Hrow as (_ & _ & Ho & _ & _ & _ & _ & Hpc & Hpc2).
    split; [exact Hpc|]. intros _ Hdept. apply Hpc2. rewrite <- Ho. exact Hdept.
  - destruct (R2 k t Hk) as (q & q' & Hrow).
    apply exception_timecard_fields in Hrow. destruct Hrow as (Hnone & Hpc & _).
    split; [exact Hpc|]. intros Href. congruence.
Qed.

Lemma paycodes_of_timecards_witness :
  exists df r',
    generate_timecards Sample.cfg Sample.roster Sample.schedule Sample.rng = Ok (df, r') /\
    forall t, In t (df_rows df) ->
      In (paycode t) ["REG"; "OT"; "CALL"] /\
      (scheduled_shift_id t <> None ->
       String.eqb (dept_of (t_org_path t)) "Nursing" = false ->
       In (paycode t) ["REG"; "OT"]).
Proof.
  destruct (generate_timecards Sample.cfg Sample.roster Sample.schedule Sample.rng)
    as [[df r']|e] eqn:E.
  - exists df, r'. split; [reflexivity|].
    exact (paycodes_of_timecards _ _ _ _ _ _ E).
  - vm_compute in E. discriminate E.
Defined.

(** X11. A row of the timecards table without a shift reference is an
    exception entry: an employee of the roster, with that employee's org
    path and job code, on the date of some filled shift, clocked in at
    5, 9, 13, 17 or 21 o'clock and out 4, 6 or 8 hours later, with
    exactly that many worked hours. *)
Theorem exception_entries cfg employees schedule r df r' :
  generate_timecards cfg employees schedule r = Ok (df, r') ->
  forall t, In t (df_rows df) -> scheduled_shift_id t = None ->
    exists e s start_hour dur,
      In e (df_rows employees) /\ In s (filled (df_rows schedule)) /\
      In start_hour [5; 9; 13; 17; 21] /\ In dur [4; 6; 8] /\
      t_employee_id t = employee_id e /\
      t_org_path t = e_org_path e /\
      t_job_code t = e_job_code e /\
      work_date t = schedule_date s /\
      clock_in t = mk_datetime (schedule_date s) start_hour 0 0 /\
      dt_seconds (clock_out t) = dt_seconds (clock_in t) + dur * 3600 /\
      (worked_hours t == inject_Z dur)%Q.
Proof.
  intros Hgen t Ht Hnone.
  destruct (generate_timecards_counted _ _ _ _ _ _ Hgen)
    as (tcs & excs & E & _ & _ & R1 & R2).
  rewrite E in Ht. apply in_app_or in Ht. destruct Ht as [Ht|Ht];
    apply In_nth_error in Ht; destruct Ht as (k & Hk).
  - destruct (R1 k t Hk) as (s & q & q' & _ & Hrow).
    apply shift_timecard_fields in Hrow.
    destruct Hrow as (_ & _ & _ & _ & Href & _). congruence.
  - destruct (R2 k t Hk) as (q & q' & Hrow).
    apply exception_timecard_fields in Hrow. tauto.
Qed.

Lemma exception_entries_witness :
  exists df r',
    generate_timecards Sample.cfg Sample.roster Sample.schedule Sample.rng = Ok (df, r') /\
    (exists t, In t (df_rows df) /\ scheduled_shift_id t = None) /\
    forall t, In t (df_rows df) -> scheduled_shift_id t = None ->
      exists e s start_hour dur,
        In e (df_rows Sample.roster) /\ In s (filled (df_rows Sample.schedule)) /\
        In start_hour [5; 9; 13; 17; 21] /\ In dur [4; 6; 8] /\
        t_employee_id t = employee_id e /\
        t_org_path t = e_org_path e /\
        t_job_code t = e_job_code e /\
        work_date t = schedule_date s /\
        clock_in t = mk_datetime (schedule_date s) start_hour 0 0 /\
        dt_seconds (clock_out t) = dt_seconds (clock_in t) + dur * 3600 /\
        (worked_hours t == inject_Z dur)%Q.
Proof.
  destruct (generate_timecards Sample.cfg Sample.roster Sample.schedule Sample.rng)
    as [[df r']|e] eqn:E.
  - exists df, r'. split; [reflexivity|]. split.
    + assert (Hex : existsb (fun t => match scheduled_shift_id t with
                                       | None => true | Some _ => false end)
                            (df_rows df) = true).
      { vm_compute in E. injection E as <- _. vm_compute. reflexivity. }
      apply existsb_exists in Hex. destruct Hex as (t & Ht & Hnone).
      exists t. split; [exact Ht|]. destruct (scheduled_shift_id t); [discriminate|reflexivity].
    + exact (exception_entries _ _ _ _ _ _ E).
  - vm_compute in E. discriminate E.
Defined.

(** ** Shuffling and sampling *)

(** Overwriting position [i] trades the old entry for the new one. *)
Lemma insert_exchange {A} (l : list A) (i : nat) (x y : A) :
  l !! i = Some x -> x :: <[i:=y]> l ≡ₚ y :: l.
Proof.
  revert i. induction l as [|a l IH]; intros [|i] Hi; simpl in *; try discriminate.
  - injection Hi as ->. apply perm_swap.
  - rewrite perm_swap. rewrite (IH i Hi). apply perm_swap.
Qed.

Lemma swap_Permutation {A} (l : list A) (i j : nat) : swap l i j ≡ₚ l.
Proof.
  unfold swap.
  destruct (l !! i) as [x|] eqn:Ei; [|reflexivity].
  destruct (l !! j) as [y|] eqn:Ej; [|reflexivity].
  assert (Hj : <[i:=y]> l !! j = Some y).
  { destruct (decide (i = j)) as [->|Hne].
    - apply list_lookup_insert_eq. apply lookup_lt_Some in Ei. exact Ei.
    - rewrite list_lookup_insert_ne by exact Hne. exact Ej. }
  apply (Permutation_cons_inv (a := y)).
  rewrite (insert_exchange _ j y x Hj).
  apply (insert_exchange _ i x y Ei).
Qed.

Lemma shuffle_Permutation {A} (l : list A) r l' r' :
  shuffle l r = Ok (l', r') -> l' ≡ₚ l.
Proof.
  unfold shuffle.
  apply (for_each_invariant (fun arr => arr ≡ₚ l)); [|reflexivity].
  intros i arr q arr' q' _ Harr Hbody. run_inv Hbody. subst arr'.
  rewrite swap_Permutation. exact Harr.
Qed.

Lemma shuffle_total {A} (l : list A) r : exists l' r', shuffle l r = Ok (l', r').
Proof.
  unfold shuffle.
  destruct (for_each_total (fun _ : list A => True)
              (fun i arr => j <- random_interval i ;; ret (swap arr i j))
              (rev (seq 1 (length l - 1)))) with (s := l) (r := r)
    as (l' & r' & E & _); [|exact I|eauto].
  intros i arr q _ _. unfold bind, random_interval, ret. eauto.
Qed.

Lemma omap_lookup_all {A} (rows : list A) (idx : list nat) :
  List.Forall (fun i => (i < length rows)%nat) idx ->
  length (omap (fun i => rows !! i) idx) = length idx.
Proof.
  induction 1 as [|i idx Hi _ IH]; [reflexivity|].
  change (omap (λ i0 : nat, rows !! i0) (i :: idx))
    with (match rows !! i with
          | Some y => y :: omap (fun i => rows !! i) idx
          | None => omap (fun i => rows !! i) idx
          end).
  destruct (lookup_lt_is_Some_2 rows i Hi) as [x ->]. simpl. rewrite IH. reflexivity.
Qed.

Lemma omap_lookup_NoDup {A B} (key : A -> B) (rows : list A) (idx : list nat) :
  List.NoDup (map key rows) -> List.NoDup idx ->
  List.NoDup (map key (omap (fun i => rows !! i) idx)).
Proof.
  intros Hrows. induction 1 as [|i idx Hnotin Hnd IH]; [constructor|].
  change (omap (λ i0 : nat, rows !! i0) (i :: idx))
    with (match rows !! i with
          | Some y => y :: omap (fun i => rows !! i) idx
          | None => omap (fun i => rows !! i) idx
          end).
  destruct (rows !! i) as [x|] eqn:Ei; [|exact IH].
  simpl. constructor; [|exact IH].
  intros Hin. apply in_map_iff in Hin. destruct Hin as (y & Hkey & Hy).
  apply list_elem_of_In, list_elem_of_omap in Hy. destruct Hy as (j & Hj & Hjy).
  apply list_elem_of_In in Hj.
  assert (i = j); [|subst; contradiction].
  rewrite <- !nth_error_lookup in *.
  rewrite List.NoDup_nth_error in Hrows.
  apply Hrows.
  - rewrite length_map. apply nth_error_Some. congruence.
  - rewrite !nth_error_map, Ei, Hjy. simpl. congruence.
Qed.

(** What [frame.sample(n=k, replace=False)] returns: [k] rows of the
    frame, at pairwise distinct positions. *)
Lemma df_sample_ok {A B} (key : A -> B) (rows : list A) (k : nat) r l r' :
  df_sample rows k r = Ok (l, r') ->
  length l = k /\ (k <= length rows)%nat /\
  (List.NoDup (map key rows) -> List.NoDup (map key l)).
Proof.
  unfold df_sample. destruct (Nat.ltb_spec (length rows) k) as [Hlt|Hle]; intros H.
  - destruct (raise_ok _ _ _ H).
  - run_inv H. subst l.
    match goal with H : shuffle _ _ = Ok (?idx, _) |- _ =>
      apply shuffle_Permutation in H; rename H into Hperm; rename idx into perm end.
    assert (Hlen : length perm = length rows).
    { rewrite (Permutation_length Hperm). apply length_seq. }
    assert (Hnd : List.NoDup perm).
    { apply NoDup_ListNoDup. rewrite Hperm. apply NoDup_ListNoDup, List.seq_NoDup. }
    assert (Hall : List.Forall (fun i => (i < length rows)%nat) perm).
    { apply List.Forall_forall. intros i Hi. apply list_elem_of_In in Hi.
      rewrite Hperm in Hi. apply list_elem_of_In, in_seq in Hi. lia. }
    split; [|split; [exact Hle|]].
    + rewrite omap_lookup_all.
      * rewrite length_take. lia.
      * apply List.Forall_forall. intros i Hi.
        rewrite List.Forall_forall in Hall. apply Hall.
        apply list_elem_of_In in Hi. apply list_elem_of_In.
        apply elem_of_take in Hi. destruct Hi as (j & Hj & _).
        apply list_elem_of_lookup. exists j. exact Hj.
    + intros Hrows. apply omap_lookup_NoDup; [exact Hrows|].
      apply NoDup_ListNoDup. apply NoDup_ListNoDup in Hnd.
      exact (sublist_NoDup _ _ Hnd (sublist_take _ _)).
Qed.

Lemma df_sample_total {A} (rows : list A) (k : nat) r :
  (k <= length rows)%nat -> exists l r', df_sample rows k r = Ok (l, r').
Proof.
  intros Hk. unfold df_sample.
  destruct (Nat.ltb_spec (length rows) k) as [Hlt|_]; [lia|].
  destruct (shuffle_total (seq 0 (length rows)) r) as (idx & r' & E).
  unfold bind. rewrite E. unfold ret. eauto.
Qed.

(** ** When the timecards can be built *)

Lemma draw_paycode_total dept worked q :
  exists pc q', draw_paycode dept worked q = Ok (pc, q').
Proof.
  unfold draw_paycode.
  destruct (String.eqb dept "Nursing" && flt (of_int 12) worked);
    [unfold ret; eauto|].
  destruct (String.eqb dept "Nursing"); unfold bind, random_random;
    match goal with |- context [if ?c then _ else _] => destruct c end;
    unfold ret, random_choice, bind, randbelow; simpl; eauto.
Qed.

Lemma loc_home_org_path_found employees id q :
  df_columns employees = true ->
  (exists e, In e (df_rows employees) /\ employee_id e = id) ->
  exists c, loc_home_org_path employees id q = Ok (c, q).
Proof.
  intros Hcols (e & He & Hid). unfold loc_home_org_path, column, bind.
  rewrite Hcols. unfold ret at 1.
  assert (Hin : In e (List.filter (fun e => String.eqb (employee_id e) id) (df_rows employees))).
  { apply filter_In. split; [exact He|]. apply String.eqb_eq. exact Hid. }
  destruct (List.filter _ (df_rows employees)) as [|a [|b l]]; [destruct Hin| |];
    unfold ret; eauto.
Qed.

Lemma loc_home_org_path_missing employees id q :
  (forall e, In e (df_rows employees) -> employee_id e <> id) ->
  loc_home_org_path employees id q = Raise KeyError.
Proof.
  intros Hmiss. unfold loc_home_org_path, column, bind.
  destruct (df_columns employees); [|reflexivity]. unfold ret at 1.
  destruct (List.filter _ (df_rows employees)) as [|a l] eqn:E; [reflexivity|].
  exfalso. assert (Hin : In a (a :: l)) by (left; reflexivity).
  rewrite <- E in Hin. apply filter_In in Hin. destruct Hin as [Hin Heq].
  apply String.eqb_eq in Heq. exact (Hmiss a Hin Heq).
Qed.

Lemma loc_home_org_path_cases employees id q :
  (exists c, loc_home_org_path employees id q = Ok (c, q)) \/
  loc_home_org_path employees id q = Raise KeyError.
Proof.
  unfold loc_home_org_path, column, bind.
  destruct (df_columns employees); [|right; reflexivity]. unfold ret at 1.
  destruct (List.filter _ (df_rows employees)) as [|a [|b l]];
    [right; reflexivity|left; unfold ret; eauto..].
Qed.

(** A filled shift's timecard is built, or the lookup of its employee
    raises KeyError; nothing else can happen. *)
Lemma shift_timecard_cases employees s tc_id q :
  (exists t q', shift_timecard employees s tc_id q = Ok (t, q')) \/
  shift_timecard employees s tc_id q = Raise KeyError.
Proof.
  unfold shift_timecard.
  erewrite bind_step by reflexivity. erewrite bind_step by reflexivity.
  match goal with |- context [bind (draw_paycode ?d ?w) _ ?q0] =>
    destruct (draw_paycode_total d w q0) as (pc & q1 & Epc) end.
  erewrite bind_step by exact Epc.
  destruct (s_employee_id s) as [id|]; [|right; reflexivity].
  erewrite bind_step by reflexivity.
  destruct (loc_home_org_path_cases employees id q1) as [(c & E)|E].
  - left. erewrite bind_step by exact E. unfold ret. eauto.
  - right. apply bind_raise. exact E.
Qed.

Lemma shift_timecard_found employees s tc_id q :
  df_columns employees = true ->
  (exists e, In e (df_rows employees) /\ s_employee_id s = Some (employee_id e)) ->
  exists t q', shift_timecard employees s tc_id q = Ok (t, q').
Proof.
  intros Hcols (e & He & Hid).
  destruct (shift_timecard_cases employees s tc_id q) as [H|H]; [exact H|].
  exfalso. revert H. unfold shift_timecard.
  erewrite bind_step by reflexivity. erewrite bind_step by reflexivity.
  match goal with |- context [bind (draw_paycode ?d ?w) _ ?q0] =>
    destruct (draw_paycode_total d w q0) as (pc & q1 & Epc) end.
  erewrite bind_step by exact Epc. rewrite Hid.
  erewrite bind_step by reflexivity.
  destruct (loc_home_org_path_found employees (employee_id e) q1 Hcols) as (c & E);
    [eauto|].
  erewrite bind_step by exact E. discriminate.
Qed.

Lemma shift_timecard_missing employees s tc_id q :
  (forall e, In e (df_rows employees) -> s_employee_id s <> Some (employee_id e)) ->
  shift_timecard employees s tc_id q = Raise KeyError.
Proof.
  intros Hmiss. unfold shift_timecard.
  erewrite bind_step by reflexivity. erewrite bind_step by reflexivity.
  match goal with |- context [bind (draw_paycode ?d ?w) _ ?q0] =>
    destruct (draw_paycode_total d w q0) as (pc & q1 & Epc) end.
  erewrite bind_step by exact Epc.
  destruct (s_employee_id s) as [id|] eqn:Eid; [|reflexivity].
  erewrite bind_step by reflexivity. apply bind_raise.
  apply loc_home_org_path_missing. intros e He Heq. apply (Hmiss e He). congruence.
Qed.

(** A loop of row builders that can only fail with [e] fails with [e]
    when one of its elements always fails. *)
Lemma for_each_rows_raise {A B} (row : A -> Z -> M B) (e : exn) (l : list A) (bad : A) :
  (forall a id q, (exists b q', row a id q = Ok (b, q')) \/ row a id q = Raise e) ->
  In bad l -> (forall id q, row bad id q = Raise e) ->
  forall st r,
    for_each l (fun a st => b <- row a (snd st) ;; ret (fst st ++ [b], snd st + 1)) st r
    = Raise e.
Proof.
  intros Hcases. induction l as [|a l IH]; intros Hbad Hfail st r; [destruct Hbad|].
  simpl. destruct Hbad as [->|Hbad].
  - apply bind_raise. apply bind_raise. apply Hfail.
  - destruct (Hcases a (snd st) r) as [(b & q' & E)|E].
    + erewrite bind_step; [apply (IH Hbad Hfail)|].
      erewrite bind_step by exact E. reflexivity.
    + apply bind_raise. apply bind_raise. exact E.
Qed.

(** X12. When a filled shift of the schedule names no employee of the
    roster (or no employee at all), [generate_timecards] raises
    KeyError: the home org path of the shift's employee cannot be
    looked up. *)
Theorem timecards_of_unknown_employee cfg employees schedule r s :
  In s (filled (df_rows schedule)) ->
  (forall e, In e (df_rows employees) -> s_employee_id s <> Some (employee_id e)) ->
  generate_timecards cfg employees schedule r = Raise KeyError.
Proof.
  intros Hs Hmiss. unfold generate_timecards, column.
  destruct (df_columns schedule); [|reflexivity].
  erewrite bind_step by reflexivity. apply bind_raise.
  apply (for_each_rows_raise (shift_timecard employees) KeyError _ s).
  - intros a id q. apply shift_timecard_cases.
  - exact Hs.
  - intros id q. apply shift_timecard_missing. exact Hmiss.
Qed.

Lemma timecards_of_unknown_employee_witness :
  generate_timecards Sample.cfg (pd_DataFrame [Sample.cleaner 100005])
    Sample.floater_schedule Sample.rng
  = Raise KeyError.
Proof.
  apply (timecards_of_unknown_employee Sample.cfg (pd_DataFrame [Sample.cleaner 100005])
           Sample.floater_schedule Sample.rng
           (filled_shift Sample.monday "H/Nursing" "Nursing" "DAY" 7 Sample.floater 500000)).
  - left. reflexivity.
  - simpl. intros e [<-|[]] H; vm_compute in H; discriminate H.
Defined.

Lemma exception_timecard_total employees shifts tc_id q :
  df_rows employees <> [] -> shifts <> [] ->
  exists t q', exception_timecard employees shifts tc_id q = Ok (t, q').
Proof.
  intros Hemp Hshifts. unfold exception_timecard.
  destruct (df_sample_total (df_rows employees) 1 q) as (es & q1 & E1).
  { destruct (df_rows employees); [congruence|simpl; lia]. }
  erewrite bind_step by exact E1.
  destruct (df_sample_ok (fun e : Employee => e) _ _ _ _ _ E1) as (L1 & _).
  destruct es as [|e es]; [discriminate L1|].
  destruct (df_sample_total shifts 1 q1) as (ds & q2 & E2).
  { destruct shifts; [congruence|simpl; lia]. }
  erewrite bind_step by exact E2.
  destruct (df_sample_ok (fun s : Shift => s) _ _ _ _ _ E2) as (L2 & _).
  destruct ds as [|s ds]; [discriminate L2|].
  unfold random_choice, bind, randbelow, ret. simpl. eauto.
Qed.

(** X13. [generate_timecards] returns a table whenever the schedule and
    the roster have their columns and every filled shift names an
    employee of the roster. *)
Theorem timecards_are_built cfg employees schedule r :
  df_columns schedule = true -> df_columns employees = true ->
  (forall s, In s (filled (df_rows schedule)) ->
     exists e, In e (df_rows employees) /\ s_employee_id s = Some (employee_id e)) ->
  exists df r', generate_timecards cfg employees schedule r = Ok (df, r').
Proof.
  intros Hsched Hemp Hknown. unfold generate_timecards, column. rewrite Hsched.
  erewrite bind_step by reflexivity.
  destruct (for_each_total (fun _ : list Timecard * Z => True)
              (fun s st => row <- shift_timecard employees s (snd st) ;;
                           ret (fst st ++ [row], snd st + 1))
              (filled (df_rows schedule))) with (s := (@nil Timecard, 900000)) (r := r)
    as (st1 & r1 & E1 & _); [|exact I|].
  { intros s st q Hs _.
    destruct (shift_timecard_found employees s (snd st) q Hemp (Hknown s Hs)) as (t & q' & E).
    eexists _, _. split; [|exact I].
    erewrite bind_step by exact E. reflexivity. }
  erewrite bind_step by exact E1.
  destruct (filled (df_rows schedule)) as [|s0 shifts] eqn:Efilled.
  - change (range (exception_count [])) with (@nil Z). simpl.
    unfold bind, ret. eauto.
  - destruct (Hknown s0 (or_introl eq_refl)) as (e0 & He0 & _).
    destruct (for_each_total (fun _ : list Timecard * Z => True)
                (fun (_ : Z) st =>
                   row <- exception_timecard employees (s0 :: shifts) (snd st) ;;
                   ret (fst st ++ [row], snd st + 1))
                (range (exception_count (s0 :: shifts)))) with (s := st1) (r := r1)
      as (st2 & r2 & E2 & _); [|exact I|].
    { intros i st q _ _.
      destruct (exception_timecard_total employees (s0 :: shifts) (snd st) q)
        as (t & q' & E); [intros Hnil; rewrite Hnil in He0; destruct He0|discriminate|].
      eexists _, _. split; [|exact I].
      erewrite bind_step by exact E. reflexivity. }
    erewrite bind_step by exact E2. unfold ret. eauto.
Qed.

Lemma timecards_are_built_witness :
  exists df r',
    generate_timecards Sample.cfg Sample.roster Sample.schedule Sample.rng_other = Ok (df, r').
Proof.
  apply (timecards_are_built Sample.cfg Sample.roster Sample.schedule Sample.rng_other).
  - reflexivity.
  - reflexivity.
  - intros s Hs. exists (Sample.nurse 100001). split; [simpl; tauto|].
    assert (Hall : forallb (fun s => match s_employee_id s with
                                     | Some id => String.eqb id "E100001"
                                     | None => false
                                     end)
                     (filled (df_rows Sample.schedule)) = true) by (vm_compute; reflexivity).
    rewrite forallb_forall in Hall. apply Hall in Hs.
    destruct (s_employee_id s) as [id|]; [|discriminate Hs].
    apply String.eqb_eq in Hs. rewrite Hs. reflexivity.
Defined.

(** ** One bucket of one org path on one day *)

(** The rows a pure appending loop adds, numbered from [id]. *)
Fixpoint rows_from {A B} (mk : A -> Z -> B) (l : list A) (id : Z) : list B :=
  match l with
  | [] => []
  | a :: l' => mk a id :: rows_from mk l' (id + 1)
  end.

Lemma for_each_pure_rows {A B} (mk : A -> Z -> B) (l : list A) :
  forall st r,
    for_each l (fun a st => ret (fst st ++ [mk a (snd st)], snd st + 1)) st r
    = Ok ((fst st ++ rows_from mk l (snd st), snd st + len l), r).
Proof.
  induction l as [|a l IH]; intros [rows id] r; simpl.
  - unfold ret, len. simpl. rewrite app_nil_r, Z.add_0_r. reflexivity.
  - unfold bind at 1. unfold ret at 1. rewrite IH. simpl.
    rewrite <- app_assoc. simpl. unfold len. simpl length.
    replace (id + 1 + Z.of_nat (length l)) with (id + Z.of_nat (S (length l))) by lia.
    reflexivity.
Qed.

Lemma rows_from_length {A B} (mk : A -> Z -> B) (l : list A) (id : Z) :
  length (rows_from mk l id) = length l.
Proof. revert id. induction l as [|a l IH]; intros id; simpl; [|rewrite IH]; reflexivity. Qed.

Lemma filled_rows_from day org_path dept bucket start_hour (chosen : list Employee) (id : Z) :
  filled (rows_from (filled_shift day org_path dept bucket start_hour) chosen id)
  = rows_from (filled_shift day org_path dept bucket start_hour) chosen id /\
  map s_employee_id (rows_from (filled_shift day org_path dept bucket start_hour) chosen id)
  = map (fun e => Some (employee_id e)) chosen.
Proof.
  revert id. induction chosen as [|e chosen IH]; intros id; simpl; [auto|].
  destruct (IH (id + 1)) as [IH1 IH2]. unfold filled in *. rewrite IH1, IH2. auto.
Qed.

Lemma NoDup_map_filter {A B} (key : A -> B) (p : A -> bool) (l : list A) :
  List.NoDup (map key l) -> List.NoDup (map key (List.filter p l)).
Proof.
  induction l as [|a l IH]; simpl; intros H; [constructor|].
  apply List.NoDup_cons_iff in H. destruct H as [Hnotin Hnd].
  destruct (p a); simpl; [|auto].
  constructor; [|auto].
  intros Hin. apply Hnotin. apply in_map_iff in Hin. destruct Hin as (x & Hx & Hin).
  apply filter_In in Hin. destruct Hin as [Hin _].
  rewrite <- Hx. apply in_map. exact Hin.
Qed.

Lemma NoDup_map_Some {A B} (key : A -> B) (l : list A) :
  List.NoDup (map key l) -> List.NoDup (map (fun x => Some (key x)) l).
Proof.
  induction l as [|a l IH]; simpl; intros H; [constructor|].
  apply List.NoDup_cons_iff in H. destruct H as [Hnotin Hnd].
  constructor; [|auto].
  intros Hin. apply Hnotin. apply in_map_iff in Hin. destruct Hin as (x & Hx & Hin).
  injection Hx as Hx. rewrite <- Hx. apply in_map. exact Hin.
Qed.

(** X14. The filled shifts added for one day, org path and bucket go
    to pairwise distinct employees (the roster having distinct ids) and
    are at most as many as the org path has employees: the sample is
    drawn without replacement and capped at the pool size. *)
Theorem bucket_no_double_booking cfg employees day org_path dept demand bp st r st' r' :
  List.NoDup (map employee_id (df_rows employees)) ->
  bucket_shifts cfg employees day org_path dept demand bp st r = Ok (st', r') ->
  exists new, fst st' = fst st ++ new /\
    List.NoDup (map s_employee_id (filled new)) /\
    (length (filled new) <=
     length (List.filter (fun e => String.eqb (e_org_path e) org_path)
                         (df_rows employees)))%nat.
Proof.
  intros Hids H. unfold bucket_shifts in H. run_inv H.
  match goal with
  | H : match List.filter ?f ?l with [] => _ | _ :: _ => _ end _ = Ok _ |- _ =>
      pose proof (NoDup_map_filter employee_id f l Hids) as Hpool;
      destruct (List.filter f l) as [|e0 org_emps] eqn:Efilter; [|run_inv H]
  end.
  { match goal with H : ret _ _ = Ok _ |- _ => apply ret_ok in H; destruct H as [-> _] end.
    exists []. rewrite app_nil_r. simpl. split; [reflexivity|]. split; [constructor|lia]. }
  match goal with
  | Hsample : df_sample _ _ _ = Ok (?chosen, _) |- _ =>
      destruct (df_sample_ok (fun e => Some (employee_id e)) _ _ _ _ _ Hsample)
        as (Hlen & Hcap & Hdistinct)
  end.
  match goal with
  | Hfilled : for_each _ _ st _ = Ok _ |- _ =>
      rewrite (for_each_pure_rows (filled_shift _ _ _ _ _)) in Hfilled;
      injection Hfilled as <- <-
  end.
  match goal with
  | Hopen : for_each (range _) (fun _ st => row <- open_shift ?c ?d ?o ?dp ?b ?h (snd st) ;; _)
              _ _ = Ok _ |- _ =>
      apply (for_each_rows (fun (_ : Z) id => open_shift c d o dp b h id)) in Hopen;
      destruct Hopen as (opens & Eopen & Hopens & _)
  end.
  simpl in Eopen.
  match goal with
  | _ : fst st' = (fst st ++ ?filled_rows) ++ opens |- _ =>
      exists (filled_rows ++ opens)
  end.
  split; [rewrite Eopen, <- app_assoc; reflexivity|].
  assert (Hnone : filled opens = []).
  { clear Eopen. induction Hopens as [|i s l1 l2 (id & q & q' & Hs) _ IH]; [reflexivity|].
    apply open_shift_ok in Hs. destruct Hs as (job & _ & ->).
    unfold filled in *. simpl. exact IH. }
  unfold filled in *. rewrite List.filter_app, Hnone, app_nil_r.
  match goal with
  | |- context [rows_from (filled_shift ?d ?o ?dp ?b ?h) ?chosen ?id] =>
      destruct (filled_rows_from d o dp b h chosen id) as [E1 E2]
  end.
  unfold filled in E1. rewrite E1, E2. split.
  - apply Hdistinct. apply NoDup_map_Some. exact Hpool.
  - rewrite rows_from_length. lia.
Qed.

Lemma bucket_no_double_booking_witness :
  exists st' r',
    bucket_shifts Sample.cfg Sample.roster Sample.monday "H/Nursing" "Nursing" 55
      ("DAY", b64 (45 # 100)) ([], 500000) Sample.rng = Ok (st', r') /\
    exists new, fst st' = [] ++ new /\
      List.NoDup (map s_employee_id (filled new)) /\
      (length (filled new) <=
       length (List.filter (fun e => String.eqb (e_org_path e) "H/Nursing")
                           (df_rows Sample.roster)))%nat.
Proof.
  destruct (bucket_shifts Sample.cfg Sample.roster Sample.monday "H/Nursing" "Nursing" 55
              ("DAY", b64 (45 # 100)) ([], 500000) Sample.rng) as [[st' r']|e] eqn:E.
  - exists st', r'. split; [reflexivity|].
    apply (bucket_no_double_booking Sample.cfg Sample.roster Sample.monday "H/Nursing"
             "Nursing" 55 ("DAY", b64 (45 # 100)) ([], 500000) Sample.rng st' r');
      [|exact E].
    vm_compute. repeat constructor; simpl; intuition discriminate.
  - vm_compute in E. discriminate E.
Defined.

(** ** The rows of the roster *)

Lemma rne_le (p q j : Z) : 0 < q -> p <= j * q -> rne p q <= j.
Proof.
  intros Hq Hj. unfold rne.
  pose proof (Z.div_mod p q ltac:(lia)) as Hdm.
  pose proof (Z.mod_pos_bound p q Hq) as Hr.
  assert (Hf : p / q <= j) by (apply Z.div_le_upper_bound; lia).
  destruct (Z.ltb_spec (2 * (p mod q)) q); [exact Hf|].
  assert (p / q < j) by nia.
  destruct (q <? 2 * (p mod q)); [lia|].
  destruct (Z.even (p / q)); lia.
Qed.

(** Rounding never goes above an integer that is itself a binary64. *)
Lemma b64_le_int (x : Q) (k : Z) :
  0 <= k < 2 ^ 53 -> (x <= inject_Z k)%Q -> (b64 x <= inject_Z k)%Q.
Proof.
  intros Hk Hx.
  assert (Hkx : Qnum x <= k * Zpos (Qden x)).
  { unfold Qle in Hx. simpl in Hx. lia. }
  destruct (Z.lt_total (Qnum x) 0) as [Hneg|[Hzero|Hpos]].
  - unfold b64. destruct (Z.eqb_spec (Qnum x) 0) as [E|_]; [lia|].
    rewrite (Z.sgn_neg _ Hneg).
    set (e0 := Z.log2 (Z.abs (Qnum x)) - Z.log2 (Z.pos (Qden x)) - 53).
    set (e := if _ <? _ then e0 else e0 + 1).
    pose proof (pow2_pos e) as HP. pose proof (pow2_pos (- e)) as HN.
    assert (Hm : 0 <= rne (Z.abs (Qnum x) * 2 ^ Z.max 0 (- e)) (Z.pos (Qden x) * 2 ^ Z.max 0 e)).
    { apply rne_nonneg; [|lia]. apply Z.mul_nonneg_nonneg; lia. }
    unfold Qle. simpl Qnum. simpl Qden.
    rewrite Z2Pos.id by exact HN. nia.
  - unfold b64. rewrite Hzero. simpl. unfold Qle. simpl. lia.
  - rewrite (b64_pos_eq x Hpos).
    pose proof (b64_exp_scaled (Qnum x) (Zpos (Qden x)) Hpos ltac:(lia)) as Hs.
    simpl in Hs.
    set (e := b64_exp (Qnum x) (Zpos (Qden x))) in *.
    pose proof (pow2_pos e) as HP. pose proof (pow2_pos (- e)) as HN.
    unfold Qle. simpl Qnum. simpl Qden.
    rewrite Z2Pos.id by exact HN. rewrite Z.mul_1_r.
    destruct (Z.le_gt_cases e 0) as [He|He].
    + rewrite (Z.max_l 0 e) in * by lia. rewrite Z.pow_0_r, !Z.mul_1_r in *.
      apply rne_le; [lia|]. nia.
    + exfalso. rewrite (Z.max_l 0 (- e)) in * by lia.
      rewrite Z.pow_0_r, !Z.mul_1_r in *. rewrite (Z.max_r 0 e) in * by lia.
      assert (2 <= 2 ^ e).
      { change 2 with (2 ^ 1) at 1. apply Z.pow_le_mono_r; lia. }
      change (2 ^ 52) with 4503599627370496 in Hs.
      change (2 ^ 53) with 9007199254740992 in Hk.
      nia.
Qed.

Lemma round2_between (x : Q) (lo hi : Z) :
  0 <= lo -> hi < 2 ^ 53 ->
  (inject_Z lo <= x)%Q -> (x <= inject_Z hi)%Q ->
  (inject_Z lo <= round2 x)%Q /\ (round2 x <= inject_Z hi)%Q.
Proof.
  intros Hlo Hhi Hx1 Hx2.
  assert (lo <= hi).
  { pose proof (Qle_trans _ _ _ Hx1 Hx2) as H. unfold Qle in H. simpl in H. lia. }
  unfold Qle in Hx1, Hx2. simpl in Hx1, Hx2. rewrite Z.mul_1_r in *.
  unfold round2. split.
  - apply b64_ge_int; [lia|]. unfold Qle. simpl.
    assert (100 * lo <= rne (100 * Qnum x) (Z.pos (Qden x))) by (apply rne_ge; lia).
    lia.
  - apply b64_le_int; [lia|]. unfold Qle. simpl.
    assert (rne (100 * Qnum x) (Z.pos (Qden x)) <= 100 * hi) by (apply rne_le; lia).
    lia.
Qed.

(** [random.uniform(a, b)] for integers [0 <= a <= b]: a float in [[a, b]]. *)
Lemma random_uniform_between (a b : Z) q x q' :
  0 <= a <= b -> b < 2 ^ 53 ->
  random_uniform (of_int a) (of_int b) q = Ok (x, q') ->
  (inject_Z a <= x)%Q /\ (x <= inject_Z b)%Q.
Proof.
  intros Hab Hb H. unfold random_uniform in H. run_inv H. subst x.
  match goal with H : random_random _ = Ok (?u, _) |- _ =>
    assert (Hu : (0 <= u)%Q /\ (u <= 1)%Q);
    [unfold random_random in H; injection H as <- _;
     match goal with |- context [?n mod ?m] =>
       pose proof (Z.mod_pos_bound n m ltac:(reflexivity)) end;
     unfold Qle; simpl; lia|] end.
  destruct Hu as [Hu0 Hu1].
  assert (Ha1 : (inject_Z a <= of_int a)%Q) by (apply b64_ge_int; [lia|apply Qle_refl]).
  assert (Ha2 : (of_int a <= inject_Z a)%Q) by (apply b64_le_int; [lia|apply Qle_refl]).
  assert (Hb1 : (inject_Z b <= of_int b)%Q) by (apply b64_ge_int; [lia|apply Qle_refl]).
  assert (Hb2 : (of_int b <= inject_Z b)%Q) by (apply b64_le_int; [lia|apply Qle_refl]).
  assert (Hd : (of_int b - of_int a <= inject_Z (b - a))%Q).
  { apply Qle_trans with (inject_Z b - inject_Z a)%Q.
    - unfold Qminus. apply Qplus_le_compat; [exact Hb2|]. apply Qopp_le_compat. exact Ha1.
    - unfold Qle. simpl. lia. }
  assert (Hd0 : (inject_Z 0 <= of_int b - of_int a)%Q).
  { apply Qle_trans with (inject_Z b - inject_Z a)%Q.
    - unfold Qle. simpl. lia.
    - unfold Qminus. apply Qplus_le_compat; [exact Hb1|]. apply Qopp_le_compat. exact Ha2. }
  assert (Hw1 : (inject_Z 0 <= fsub (of_int b) (of_int a))%Q)
    by (apply b64_ge_int; [lia|exact Hd0]).
  assert (Hw2 : (fsub (of_int b) (of_int a) <= inject_Z (b - a))%Q)
    by (apply b64_le_int; [lia|exact Hd]).
  set (w := fsub (of_int b) (of_int a)) in *.
  assert (Hv1 : (inject_Z 0 <= fmul w a0)%Q).
  { apply b64_ge_int; [lia|]. apply Qmult_le_0_compat; assumption. }
  assert (Hv2 : (fmul w a0 <= inject_Z (b - a))%Q).
  { apply b64_le_int; [lia|]. apply Qle_trans with (w * 1)%Q.
    - rewrite !(Qmult_comm w). apply Qmult_le_compat_r; assumption.
    - rewrite Qmult_1_r. exact Hw2. }
  set (v := fmul w a0) in *. unfold fadd. split.
  - apply b64_ge_int; [lia|].
    apply Qle_trans with (inject_Z a + inject_Z 0)%Q; [unfold Qle; simpl; lia|].
    apply Qplus_le_compat; assumption.
  - apply b64_le_int; [lia|].
    apply Qle_trans with (inject_Z a + inject_Z (b - a))%Q;
      [apply Qplus_le_compat; assumption|].
    rewrite <- inject_Z_plus. unfold Qle. simpl. lia.
Qed.

(** What one pass of the inner loop records: the org path it was given,
    a status out of the three, a job of the department's list (or the
    generic job when the list is empty) and a rate in the department's
    range. *)
Lemma employee_row_fields org_path dept dept_jobs emp_num r e r' :
  employee_row org_path dept dept_jobs emp_num r = Ok (e, r') ->
  e_org_path e = org_path /\ department e = dept /\
  In (employment_status e) ["FT"; "PT"; "PRN"] /\
  match dept_jobs with
  | [] => e_job_code e = "GEN" /\ e_job_title e = "General Staff" /\
          e_job_family e = dept
  | _ :: _ => exists job, In job dept_jobs /\ e_job_code e = job_code job /\
                e_job_title e = job_title job /\ e_job_family e = job_family job
  end /\
  (if String.eqb dept "Nursing"
   then (inject_Z 18 <= hourly_rate e)%Q /\ (hourly_rate e <= inject_Z 55)%Q
   else (inject_Z 15 <= hourly_rate e)%Q /\ (hourly_rate e <= inject_Z 35)%Q).
Proof.
  intros H. unfold employee_row in H. run_inv H. subst e. simpl.
  split; [reflexivity|]. split; [reflexivity|]. split; [|split].
  - exact (random_choice_In _ _ _ _ Hrun0).
  - destruct dept_jobs as [|j js].
    + apply ret_ok in Hrun. destruct Hrun as [Ea _]. subst a. simpl. auto.
    + exists a. split; [exact (random_choice_In _ _ _ _ Hrun)|auto].
  - destruct (String.eqb dept "Nursing");
      (apply random_uniform_between in Hrun2; [|lia|reflexivity]);
      destruct Hrun2 as [Hlo Hhi];
      apply round2_between; try assumption; try lia; reflexivity.
Qed.

(** A row of the roster, as [generate_employees] builds it from [cfg]. *)
Definition roster_row (cfg : Config) (e : Employee) : Prop :=
  In (e_org_path e) (orgs cfg) /\
  department e = dept_of (e_org_path e) /\
  In (employment_status e) ["FT"; "PT"; "PRN"] /\
  match default [] (jobs cfg !! department e) with
  | [] => e_job_code e = "GEN" /\ e_job_title e = "General Staff" /\
          e_job_family e = department e
  | j :: js => exists job, In job (j :: js) /\ e_job_code e = job_code job /\
                 e_job_title e = job_title job /\ e_job_family e = job_family job
  end /\
  (if String.eqb (department e) "Nursing"
   then (inject_Z 18 <= hourly_rate e)%Q /\ (hourly_rate e <= inject_Z 55)%Q
   else (inject_Z 15 <= hourly_rate e)%Q /\ (hourly_rate e <= inject_Z 35)%Q).

Lemma org_employees_rows cfg n org_path st r st' r' :
  In org_path (orgs cfg) ->
  List.Forall (roster_row cfg) (fst st) ->
  org_employees cfg n org_path st r = Ok (st', r') ->
  List.Forall (roster_row cfg) (fst st').
Proof.
  intros Hin Hst H. unfold org_employees in H.
  revert H. apply (for_each_invariant (fun s => List.Forall (roster_row cfg) (fst s)));
    [|exact Hst].
  intros _ s q s' q' _ Hs Hb. run_inv Hb. subst s'. simpl.
  apply Forall_snoc; [exact Hs|].
  match goal with H : employee_row _ _ _ _ _ = Ok _ |- _ =>
    apply employee_row_fields in H; destruct H as (Ho & Hd & Hs' & Hj & Hr) end.
  unfold roster_row. rewrite Ho, Hd.
  split; [exact Hin|]. split; [reflexivity|]. split; [exact Hs'|].
  split; [|exact Hr].
  destruct (default [] (jobs cfg !! dept_of org_path)); exact Hj.
Qed.

Lemma generate_employees_rows cfg n r df r' :
  generate_employees cfg n r = Ok (df, r') ->
  List.Forall (roster_row cfg) (df_rows df).
Proof.
  intros H. unfold generate_employees in H. run_inv H. subst df. simpl.
  match goal with H : for_each _ _ _ _ = Ok _ |- _ => revert H end.
  apply (for_each_invariant (fun s => List.Forall (roster_row cfg) (fst s)));
    [|constructor].
  intros o s q s' q' Hin Hs Hb. exact (org_employees_rows _ _ _ _ _ _ _ Hin Hs Hb).
Qed.

(** X15. Every employee of the roster sits on an org path of the
    configuration, has one of the statuses FT, PT and PRN, and holds a
    job of their department's list in the catalog: code, title and
    family are those of one entry.  When the department has no list, or
    an empty one, the job is the generic one, GEN / General Staff, with
    the department as its family. *)
Theorem roster_jobs_of_catalog cfg n r df r' e :
  generate_employees cfg n r = Ok (df, r') -> In e (df_rows df) ->
  In (e_org_path e) (orgs cfg) /\
  In (employment_status e) ["FT"; "PT"; "PRN"] /\
  match default [] (jobs cfg !! dept_of (e_org_path e)) with
  | [] => e_job_code e = "GEN" /\ e_job_title e = "General Staff" /\
          e_job_family e = dept_of (e_org_path e)
  | j :: js => exists job, In job (j :: js) /\ e_job_code e = job_code job /\
                 e_job_title e = job_title job /\ e_job_family e = job_family job
  end.
Proof.
  intros H He. apply generate_employees_rows in H.
  rewrite List.Forall_forall in H. destruct (H e He) as (Ho & Hd & Hs & Hj & _).
  rewrite <- Hd. auto.
Qed.

Lemma roster_jobs_of_catalog_witness :
  exists df r', generate_employees Sample.cfg 2 Sample.rng = Ok (df, r') /\
    forall e, In e (df_rows df) ->
      In (e_org_path e) (orgs Sample.cfg) /\
      In (employment_status e) ["FT"; "PT"; "PRN"] /\
      match default [] (jobs Sample.cfg !! dept_of (e_org_path e)) with
      | [] => e_job_code e = "GEN" /\ e_job_title e = "General Staff" /\
              e_job_family e = dept_of (e_org_path e)
      | j :: js => exists job, In job (j :: js) /\ e_job_code e = job_code job /\
                     e_job_title e = job_title job /\ e_job_family e = job_family job
      end.
Proof.
  destruct (generate_employees Sample.cfg 2 Sample.rng) as [[df r']|x] eqn:E.
  - exists df, r'. split; [reflexivity|].
    intros e He. exact (roster_jobs_of_catalog Sample.cfg 2 Sample.rng df r' e E He).
  - vm_compute in E. discriminate E.
Defined.

(** X16. The hourly rate of every employee of the roster lies in the
    range of the department: 18 to 55 in Nursing, 15 to 35 elsewhere,
    both ends included. *)
Theorem hourly_rate_range cfg n r df r' e :
  generate_employees cfg n r = Ok (df, r') -> In e (df_rows df) ->
  if String.eqb (dept_of (e_org_path e)) "Nursing"
  then (inject_Z 18 <= hourly_rate e)%Q /\ (hourly_rate e <= inject_Z 55)%Q
  else (inject_Z 15 <= hourly_rate e)%Q /\ (hourly_rate e <= inject_Z 35)%Q.
Proof.
  intros H He. apply generate_employees_rows in H.
  rewrite List.Forall_forall in H. destruct (H e He) as (_ & Hd & _ & _ & Hr).
  rewrite <- Hd. exact Hr.
Qed.

Lemma hourly_rate_range_witness :
  exists df r', generate_employees Sample.cfg 2 Sample.rng = Ok (df, r') /\
    forall e, In e (df_rows df) ->
      if String.eqb (dept_of (e_org_path e)) "Nursing"
      then (inject_Z 18 <= hourly_rate e)%Q /\ (hourly_rate e <= inject_Z 55)%Q
      else (inject_Z 15 <= hourly_rate e)%Q /\ (hourly_rate e <= inject_Z 35)%Q.
Proof.
  destruct (generate_employees Sample.cfg 2 Sample.rng) as [[df r']|x] eqn:E.
  - exists df, r'. split; [reflexivity|].
    intros e He. exact (hourly_rate_range Sample.cfg 2 Sample.rng df r' e E He).
  - vm_compute in E. discriminate E.
Defined.

(** ** Which stream each generator draws from *)

(** A computation that, when it returns, leaves the component [f] of the
    streams as it found it. *)
Definition keeps {A B} (f : Rng -> B) (m : M A) : Prop :=
  forall r a r', m r = Ok (a, r') -> f r' = f r.

Lemma keeps_ret {A B} (f : Rng -> B) (a : A) : keeps f (ret a).
Proof. intros r b r' H. apply ret_ok in H. destruct H as [_ ->]. reflexivity. Qed.

Lemma keeps_raise {A B} (f : Rng -> B) (e : exn) : keeps f (@raise A e).
Proof. intros r b r' H. destruct (raise_ok _ _ _ H). Qed.

Lemma keeps_bind {A B C} (f : Rng -> C) (m : M A) (k : A -> M B) :
  keeps f m -> (forall a, keeps f (k a)) -> keeps f (bind m k).
Proof.
  intros Hm Hk r b r' H. apply bind_ok in H. destruct H as (a & q & H1 & H2).
  rewrite (Hk a q b r' H2). exact (Hm r a q H1).
Qed.

Lemma keeps_for_each {A S B} (f : Rng -> B) (body : A -> S -> M S) (l : list A) :
  (forall a s, keeps f (body a s)) -> forall s, keeps f (for_each l body s).
Proof.
  intros Hbody. induction l as [|a l IH]; intros s; simpl.
  - apply keeps_ret.
  - apply keeps_bind; [apply Hbody|exact IH].
Qed.

Create HintDb keeps.
#[local] Hint Resolve keeps_ret keeps_raise : keeps.

Ltac keeps_step :=
  first [ apply keeps_ret | apply keeps_raise
        | apply keeps_bind; [|intros ?]
        | apply keeps_for_each; intros ? ?
        | match goal with
          | |- keeps _ (match ?x with _ => _ end) => destruct x
          end
        | solve [auto with keeps] ].

(** The draws of Python's [random] module move neither numpy's stream
    nor Faker's. *)
Lemma randbelow_keeps_np n : keeps np_pos (randbelow n).
Proof. intros r a r' H. unfold randbelow in H. injection H as _ <-. reflexivity. Qed.

Lemma randbelow_keeps_faker n : keeps faker_pos (randbelow n).
Proof. intros r a r' H. unfold randbelow in H. injection H as _ <-. reflexivity. Qed.

Lemma random_random_keeps_np : keeps np_pos random_random.
Proof. intros r a r' H. unfold random_random in H. injection H as _ <-. reflexivity. Qed.

Lemma random_random_keeps_faker : keeps faker_pos random_random.
Proof. intros r a r' H. unfold random_random in H. injection H as _ <-. reflexivity. Qed.

#[local] Hint Resolve randbelow_keeps_np randbelow_keeps_faker
  random_random_keeps_np random_random_keeps_faker : keeps.

Lemma random_choice_keeps_np {A} (l : list A) : keeps np_pos (random_choice l).
Proof. unfold random_choice. repeat keeps_step. Qed.

Lemma random_choice_keeps_faker {A} (l : list A) : keeps faker_pos (random_choice l).
Proof. unfold random_choice. repeat keeps_step. Qed.

Lemma random_uniform_keeps_np a b : keeps np_pos (random_uniform a b).
Proof. unfold random_uniform. repeat keeps_step. Qed.

Lemma random_uniform_keeps_faker a b : keeps faker_pos (random_uniform a b).
Proof. unfold random_uniform. repeat keeps_step. Qed.

(** numpy's draws and the column lookup do not move Faker's stream. *)
Lemma np_random_normal_keeps_faker loc scale : keeps faker_pos (np_random_normal loc scale).
Proof. intros r a r' H. unfold np_random_normal in H. injection H as _ <-. reflexivity. Qed.

Lemma random_interval_keeps_faker n : keeps faker_pos (random_interval n).
Proof. intros r a r' H. unfold random_interval in H. injection H as _ <-. reflexivity. Qed.

Lemma column_keeps {A B} (f : Rng -> B) (df : DataFrame A) : keeps f (column df).
Proof. unfold column. repeat keeps_step. Qed.

#[local] Hint Resolve random_choice_keeps_np random_choice_keeps_faker
  random_uniform_keeps_np random_uniform_keeps_faker
  np_random_normal_keeps_faker random_interval_keeps_faker column_keeps : keeps.

Lemma df_sample_keeps_faker {A} (rows : list A) k : keeps faker_pos (df_sample rows k).
Proof. unfold df_sample, shuffle. repeat keeps_step. Qed.

#[local] Hint Resolve df_sample_keeps_faker : keeps.

(** [fake.name()] takes one name and leaves numpy's stream alone. *)
Lemma fake_name_draws r a r' :
  fake_name r = Ok (a, r') -> np_pos r' = np_pos r /\ faker_pos r' = S (faker_pos r).
Proof. intros H. unfold fake_name in H. injection H as _ <-. split; reflexivity. Qed.

Lemma employee_row_draws org_path dept dept_jobs emp_num r e r' :
  employee_row org_path dept dept_jobs emp_num r = Ok (e, r') ->
  np_pos r' = np_pos r /\ faker_pos r' = S (faker_pos r).
Proof.
  intros H. unfold employee_row in H.
  apply bind_ok in H. destruct H as (job & q1 & Hjob & H).
  apply bind_ok in H. destruct H as (name & q2 & Hname & H).
  apply bind_ok in H. destruct H as (status & q3 & Hstatus & H).
  apply bind_ok in H. destruct H as (rate & q4 & Hrate & H).
  apply ret_ok in H. destruct H as [_ ->].
  apply fake_name_draws in Hname. destruct Hname as [Hn1 Hn2].
  assert (Hj : np_pos q1 = np_pos r /\ faker_pos q1 = faker_pos r).
  { destruct dept_jobs.
    - apply ret_ok in Hjob. destruct Hjob as [_ ->]. auto.
    - split; [exact (random_choice_keeps_np _ _ _ _ Hjob)
             |exact (random_choice_keeps_faker _ _ _ _ Hjob)]. }
  assert (Hr : np_pos q4 = np_pos q3 /\ faker_pos q4 = faker_pos q3).
  { destruct (String.eqb dept "Nursing");
      (split; [exact (random_uniform_keeps_np _ _ _ _ _ Hrate)
              |exact (random_uniform_keeps_faker _ _ _ _ _ Hrate)]). }
  pose proof (random_choice_keeps_np _ _ _ _ Hstatus).
  pose proof (random_choice_keeps_faker _ _ _ _ Hstatus).
  destruct Hj, Hr. split; congruence.
Qed.

(** An invariant that relates the loop state to the streams. *)
Lemma for_each_run_invariant {A S} (P : S -> Rng -> Prop) (body : A -> S -> M S)
    (l : list A) :
  (forall a s r s' r', In a l -> P s r -> body a s r = Ok (s', r') -> P s' r') ->
  forall s r s' r', P s r -> for_each l body s r = Ok (s', r') -> P s' r'.
Proof.
  induction l as [|a l IH]; intros Hbody s r s' r' Hs Hrun; simpl in Hrun.
  - apply ret_ok in Hrun. destruct Hrun as [-> ->]. exact Hs.
  - apply bind_ok in Hrun. destruct Hrun as (s1 & r1 & H1 & H2).
    apply (IH (fun a' s0 r0 s2 r2 Hin => Hbody a' s0 r0 s2 r2 (or_intror Hin))
              s1 r1 s' r'); [|exact H2].
    exact (Hbody a s r s1 r1 (or_introl eq_refl) Hs H1).
Qed.

(** X17. Building the roster takes exactly one name from Faker for each
    employee and nothing from numpy's stream: the tables built after it
    find numpy's generator as the seeding left it. *)
Theorem roster_draws cfg n r df r' :
  generate_employees cfg n r = Ok (df, r') ->
  np_pos r' = np_pos r /\
  faker_pos r' = (faker_pos r + length (df_rows df))%nat.
Proof.
  intros H. unfold generate_employees in H.
  apply bind_ok in H. destruct H as (st & q & Hloop & H).
  apply ret_ok in H. destruct H as [-> ->]. simpl.
  revert Hloop.
  apply (for_each_run_invariant
           (fun (s : list Employee * Z) q =>
              np_pos q = np_pos r /\
              faker_pos q = (faker_pos r + length (fst s))%nat));
    [|simpl; split; [reflexivity|lia]].
  intros o s q0 s' q' _ Hs. unfold org_employees.
  apply (for_each_run_invariant
           (fun (s : list Employee * Z) q =>
              np_pos q = np_pos r /\
              faker_pos q = (faker_pos r + length (fst s))%nat)); [|exact Hs].
  intros _ s1 q1 s2 q2 _ [Hn Hf] Hb.
  apply bind_ok in Hb. destruct Hb as (e & q3 & He & Hb).
  apply ret_ok in Hb. destruct Hb as [-> ->]. simpl.
  apply employee_row_draws in He. destruct He as [He1 He2].
  rewrite length_app. simpl. split; [congruence|lia].
Qed.

Lemma roster_draws_witness :
  exists df r', generate_employees Sample.cfg 2 Sample.rng = Ok (df, r') /\
    np_pos r' = np_pos Sample.rng /\
    faker_pos r' = (faker_pos Sample.rng + length (df_rows df))%nat.
Proof.
  destruct (generate_employees Sample.cfg 2 Sample.rng) as [[df r']|x] eqn:E.
  - exists df, r'. split; [reflexivity|].
    exact (roster_draws Sample.cfg 2 Sample.rng df r' E).
  - vm_compute in E. discriminate E.
Defined.

(** X18. [generate_schedule] never asks Faker for a name: whatever the
    roster and the horizon, Faker's stream is where it was. *)
Theorem schedule_draws_no_name cfg employees start_date r df r' :
  generate_schedule cfg employees start_date r = Ok (df, r') ->
  faker_pos r' = faker_pos r.
Proof.
  revert r df r'. change (keeps faker_pos (generate_schedule cfg employees start_date)).
  unfold generate_schedule, day_shifts, org_shifts, bucket_shifts, open_shift.
  cbv zeta. repeat keeps_step.
Qed.

Lemma schedule_draws_no_name_witness :
  exists df r',
    generate_schedule Sample.cfg Sample.roster Sample.monday Sample.rng = Ok (df, r') /\
    faker_pos r' = faker_pos Sample.rng.
Proof.
  destruct (generate_schedule Sample.cfg Sample.roster Sample.monday Sample.rng)
    as [[df r']|x] eqn:E.
  - exists df, r'. split; [reflexivity|].
    exact (schedule_draws_no_name Sample.cfg Sample.roster Sample.monday Sample.rng df r' E).
  - vm_compute in E. discriminate E.
Defined.

Lemma draw_paycode_keeps_faker dept worked : keeps faker_pos (draw_paycode dept worked).
Proof.
  unfold draw_paycode.
  destruct (String.eqb dept "Nursing" && flt (of_int 12) worked); [apply keeps_ret|].
  destruct (String.eqb dept "Nursing");
    (apply keeps_bind; [apply random_random_keeps_faker|]);
    intros u; [destruct (flt u (b64 (18 # 100)))|destruct (flt u (b64 (8 # 100)))];
    auto with keeps.
Qed.

Lemma loc_home_org_path_keeps_faker employees id :
  keeps faker_pos (loc_home_org_path employees id).
Proof.
  unfold loc_home_org_path. apply keeps_bind; [apply column_keeps|]. intros _.
  destruct (List.filter _ _) as [|e [|e' es]]; auto with keeps.
Qed.

Lemma shift_timecard_keeps_faker employees s tc_id :
  keeps faker_pos (shift_timecard employees s tc_id).
Proof.
  unfold shift_timecard. cbv zeta.
  apply keeps_bind; [apply np_random_normal_keeps_faker|]. intros x.
  apply keeps_bind; [apply np_random_normal_keeps_faker|]. intros y.
  apply keeps_bind; [apply draw_paycode_keeps_faker|]. intros pc.
  apply keeps_bind; [destruct (s_employee_id s); auto with keeps|]. intros id.
  apply keeps_bind; [apply loc_home_org_path_keeps_faker|]. intros home.
  apply keeps_ret.
Qed.

Lemma exception_timecard_keeps_faker employees scheduled_assigned tc_id :
  keeps faker_pos (exception_timecard employees scheduled_assigned tc_id).
Proof.
  unfold exception_timecard.
  apply keeps_bind; [apply df_sample_keeps_faker|]. intros [|e es]; [apply keeps_raise|].
  apply keeps_bind; [apply df_sample_keeps_faker|]. intros [|s ds]; [apply keeps_raise|].
  cbv zeta.
  apply keeps_bind; [apply random_choice_keeps_faker|]. intros start_hour.
  apply keeps_bind; [apply random_choice_keeps_faker|]. intros dur.
  apply keeps_bind; [apply random_choice_keeps_faker|]. intros pc.
  apply keeps_ret.
Qed.

(** X19. [generate_timecards] never asks Faker for a name either. *)
Theorem timecards_draw_no_name cfg employees schedule r df r' :
  generate_timecards cfg employees schedule r = Ok (df, r') ->
  faker_pos r' = faker_pos r.
Proof.
  revert r df r'. change (keeps faker_pos (generate_timecards cfg employees schedule)).
  unfold generate_timecards. cbv zeta.
  apply keeps_bind; [apply column_keeps|]. intros _.
  apply keeps_bind.
  - apply keeps_for_each. intros s st.
    apply keeps_bind; [apply shift_timecard_keeps_faker|]. intros row. apply keeps_ret.
  - intros st. apply keeps_bind; [|intros st'; apply keeps_ret].
    apply keeps_for_each. intros i st0.
    apply keeps_bind; [apply exception_timecard_keeps_faker|]. intros row. apply keeps_ret.
Qed.

Lemma timecards_draw_no_name_witness :
  exists df r',
    generate_timecards Sample.cfg Sample.roster Sample.schedule Sample.rng = Ok (df, r') /\
    faker_pos r' = faker_pos Sample.rng.
Proof.
  destruct (generate_timecards Sample.cfg Sample.roster Sample.schedule Sample.rng)
    as [[df r']|x] eqn:E.
  - exists df, r'. split; [reflexivity|].
    exact (timecards_draw_no_name Sample.cfg Sample.roster Sample.schedule Sample.rng df r' E).
  - vm_compute in E. discriminate E.
Defined.
